(** * peakdet: the report workflow (cli/run.py) and the column workflow
      (workflow.py), embedded as state-and-exception passing functions.

    Python strings are [string]s whose characters are code points below 256;
    dictionaries are [gmap]s, or association lists where the order of the
    keys is observable; an exception is a value of [exn] carried on the
    left of a sum, next to the world that the statement left behind. *)

From Stdlib Require Import String Ascii ZArith List Lia.
From Stdlib Require Import Floats.SpecFloat.
From stdpp Require Import base option list strings gmap pretty.

Local Open Scope string_scope.
#[local] Set Default Proof Using "Type".

(** ** Exceptions and the state-and-exception monad *)

Inductive exn : Type :=
  | TypeError (msg : string)
  | ValueError (msg : string)
  | KeyError (key : string)
  | IndexError (msg : string)
  | UnboundLocalError (name : string)
  | FileNotFoundError (path : string)
  | OverflowError (msg : string)
  | OtherError (msg : string).

Definition result (A : Type) : Type := exn + A.

Abbreviation Ok := (@inr exn _).
Abbreviation Err := (@inl exn _).

(** A computation runs on a world [W]; the world it leaves is returned even
    when it raises, as the effects of a Python statement survive the
    exception that ends it. *)
Definition M (W A : Type) : Type := W -> W * result A.

Definition ret {W A} (a : A) : M W A := fun w => (w, Ok a).
Definition raise {W A} (e : exn) : M W A := fun w => (w, Err e).
Definition bind {W A B} (m : M W A) (k : A -> M W B) : M W B :=
  fun w => match m w with
           | (w', inr a) => k a w'
           | (w', inl e) => (w', inl e)
           end.
Definition lift {W A} (r : result A) : M W A := fun w => (w, r).
Definition gets {W A} (f : W -> A) : M W A := fun w => (w, Ok (f w)).
Definition modify {W} (f : W -> W) : M W unit := fun w => (f w, Ok tt).

Declare Scope py_scope.
Delimit Scope py_scope with py.
Local Open Scope py_scope.
Notation "'let*' x := m 'in' k" := (bind m (fun x => k))
  (at level 10, x pattern, m at level 100, k at level 200) : py_scope.

(** [for x in xs: body x] *)
Fixpoint for_each {W A} (xs : list A) (body : A -> M W unit) : M W unit :=
  match xs with
  | [] => ret tt
  | x :: rest => bind (body x) (fun _ => for_each rest body)
  end.

(** A list comprehension whose element expression may raise. *)
Fixpoint map_result {A B} (f : A -> result B) (xs : list A) : result (list B) :=
  match xs with
  | [] => Ok []
  | x :: rest =>
      match f x with
      | inl e => inl e
      | inr b => match map_result f rest with
                 | inl e => inl e
                 | inr bs => Ok (b :: bs)
                 end
      end
  end.

(** Subscripting of a dictionary kept as an association list. *)
Fixpoint assoc {V} (d : list (string * V)) (k : string) : option V :=
  match d with
  | [] => None
  | (k', v) :: rest => if String.eqb k' k then Some v else assoc rest k
  end.

Definition dict_get {V} (d : list (string * V)) (k : string) : result V :=
  match assoc d k with
  | Some v => Ok v
  | None => Err (KeyError k)
  end.

(** ** Python string operations *)

Module Str.

Definition newline : string := String "010" EmptyString.
Definition tab : string := String "009" EmptyString.

(** [str.isspace] on one character below U+0100. *)
Definition is_space (c : ascii) : bool :=
  let n := nat_of_ascii c in
  (((9 <=? n) && (n <=? 13)) || ((28 <=? n) && (n <=? 32))
   || (n =? 133) || (n =? 160))%nat.

Fixpoint lstrip (s : string) : string :=
  match s with
  | String c rest => if is_space c then lstrip rest else s
  | EmptyString => EmptyString
  end.

(** [s.rstrip()]: the characters are kept up to the last one that is
    not white space. *)
Fixpoint rstrip (s : string) : string :=
  match s with
  | EmptyString => EmptyString
  | String c rest =>
      match rstrip rest with
      | EmptyString => if is_space c then EmptyString else String c EmptyString
      | r => String c r
      end
  end.

Definition strip (s : string) : string := rstrip (lstrip s).

(** [s.split(sep)] for a separator of one character: never empty. *)
Fixpoint split (sep : ascii) (s : string) : list string :=
  match s with
  | EmptyString => [EmptyString]
  | String c rest =>
      if Ascii.eqb c sep then EmptyString :: split sep rest
      else match split sep rest with
           | w :: ws => String c w :: ws
           | [] => [String c EmptyString]
           end
  end.

(** [src.readlines()] on text whose line ends are already ["\n"]: every
    line keeps its terminator, the last one may lack it. *)
Fixpoint readlines (s : string) : list string :=
  match s with
  | EmptyString => []
  | String c rest =>
      if Ascii.eqb c "010" then String c EmptyString :: readlines rest
      else match readlines rest with
           | l :: ls => String c l :: ls
           | [] => [String c EmptyString]
           end
  end.

(** What a file opened in text mode gives for its text: ["\r\n"] and a
    lone ["\r"] are read as ["\n"]. *)
Fixpoint universal_newlines (s : string) : string :=
  match s with
  | EmptyString => EmptyString
  | String c rest =>
      if Ascii.eqb c "013" then
        String "010"
          match rest with
          | String d rest' =>
              if Ascii.eqb d "010" then universal_newlines rest'
              else universal_newlines rest
          | EmptyString => EmptyString
          end
      else String c (universal_newlines rest)
  end.

(** [src.readlines()] for [src] opened with [open(path, "r")]. *)
Definition file_lines (text : string) : list string :=
  readlines (universal_newlines text).

Definition join (sep : string) (xs : list string) : string :=
  String.concat sep xs.

Fixpoint rfind (c : ascii) (s : string) : option nat :=
  match s with
  | EmptyString => None
  | String a rest =>
      match rfind c rest with
      | Some i => Some (S i)
      | None => if Ascii.eqb a c then Some 0 else None
      end
  end.

Fixpoint all_chars (p : ascii -> bool) (s : string) : bool :=
  match s with
  | EmptyString => true
  | String c rest => p c && all_chars p rest
  end.

Fixpoint rstrip_char (c : ascii) (s : string) : string :=
  match s with
  | EmptyString => EmptyString
  | String a rest =>
      match rstrip_char c rest with
      | EmptyString => if Ascii.eqb a c then EmptyString else String a EmptyString
      | r => String a r
      end
  end.

Definition startswith_char (c : ascii) (s : string) : bool :=
  match s with
  | String a _ => Ascii.eqb a c
  | EmptyString => false
  end.

Fixpoint endswith_char (c : ascii) (s : string) : bool :=
  match s with
  | EmptyString => false
  | String a EmptyString => Ascii.eqb a c
  | String _ rest => endswith_char c rest
  end.

End Str.

Example split_ex : Str.split "," "filename,avgnn,rmssd" = ["filename"; "avgnn"; "rmssd"].
Proof. reflexivity. Qed.
Example split_ex2 : Str.split "," "filename," = ["filename"; ""].
Proof. reflexivity. Qed.
Example readlines_ex :
  Str.readlines ("ab" ++ Str.newline ++ Str.newline ++ "c") =
  ["ab" ++ Str.newline; Str.newline; "c"].
Proof. reflexivity. Qed.
Example file_lines_ex :
  Str.file_lines (String "a" (String "013" (String "010" (String "b" (String "013" "c"))))) =
  ["a" ++ Str.newline; "b" ++ Str.newline; "c"].
Proof. reflexivity. Qed.
Example strip_ex : Str.strip (" a b " ++ Str.newline) = "a b".
Proof. reflexivity. Qed.

(** Facts on strings used below. *)

Lemma string_app_nil_r (s : string) : s ++ "" = s.
Proof. induction s as [|c s IH]; [reflexivity|]. change (String c (s ++ "") = String c s). by rewrite IH. Qed.

Lemma string_app_assoc (s t u : string) : (s ++ t) ++ u = s ++ t ++ u.
Proof.
  induction s as [|c s IH]; [reflexivity|].
  change (String c ((s ++ t) ++ u) = String c (s ++ t ++ u)). by rewrite IH.
Qed.

Lemma string_length_app (s t : string) :
  String.length (s ++ t) = (String.length s + String.length t)%nat.
Proof.
  induction s as [|c s IH]; [reflexivity|].
  change (S (String.length (s ++ t)) = S (String.length s + String.length t)). by rewrite IH.
Qed.


(** A field that has no comma and no white space comes back from a split
    of the joined row, and from a strip with a line end behind it. *)
Definition plain (s : string) : bool :=
  Str.all_chars (fun c => negb (Str.is_space c) && negb (Ascii.eqb c ",")) s.

Lemma split_plain_app (m s : string) :
  plain m = true ->
  Str.split "," (m ++ s) = (m ++ hd "" (Str.split "," s)) :: tl (Str.split "," s).
Proof.
  induction m as [|c m IH]; intros Hm.
  - change ("" ++ s) with s. destruct s as [|a s]; [reflexivity|].
    cbn. destruct (Ascii.eqb a ","); [reflexivity|]. by destruct (Str.split "," s).
  - cbn in Hm. apply andb_prop in Hm as [Hc Hm]. apply andb_prop in Hc as [_ Hc].
    change (String c m ++ s) with (String c (m ++ s)). cbn [Str.split].
    destruct (Ascii.eqb c ","); [discriminate|]. by rewrite (IH Hm).
Qed.

Lemma rstrip_plain_newline (m : string) :
  plain m = true -> Str.rstrip (m ++ Str.newline) = m.
Proof.
  induction m as [|c m IH]; intros Hm; [reflexivity|].
  cbn in Hm. apply andb_prop in Hm as [Hc Hm]. apply andb_prop in Hc as [Hc _].
  change (String c m ++ Str.newline) with (String c (m ++ Str.newline)).
  cbn [Str.rstrip]. rewrite (IH Hm). destruct m; [|reflexivity].
  by destruct (Str.is_space c).
Qed.

Lemma rstrip_plain (m : string) : plain m = true -> Str.rstrip m = m.
Proof.
  induction m as [|c m IH]; intros Hm; [reflexivity|].
  cbn in Hm. apply andb_prop in Hm as [Hc Hm]. apply andb_prop in Hc as [Hc _].
  cbn [Str.rstrip]. rewrite (IH Hm). destruct m; [|reflexivity].
  by destruct (Str.is_space c).
Qed.

Lemma lstrip_plain_app (m s : string) :
  plain m = true -> m <> "" -> Str.lstrip (m ++ s) = m ++ s.
Proof.
  destruct m as [|c m]; intros Hm Hne; [done|].
  cbn in Hm. apply andb_prop in Hm as [Hc _]. apply andb_prop in Hc as [Hc _].
  change (String c m ++ s) with (String c (m ++ s)). cbn [Str.lstrip].
  by destruct (Str.is_space c).
Qed.

Lemma strip_plain (m : string) : plain m = true -> Str.strip m = m.
Proof.
  intros Hm. unfold Str.strip. destruct m as [|c m]; [reflexivity|].
  rewrite <- (string_app_nil_r (String c m)) at 1.
  rewrite lstrip_plain_app, string_app_nil_r by done. by apply rstrip_plain.
Qed.

Lemma strip_plain_newline (m : string) :
  plain m = true -> Str.strip (m ++ Str.newline) = m.
Proof.
  intros Hm. unfold Str.strip. destruct m as [|c m]; [reflexivity|].
  rewrite lstrip_plain_app by done. by apply rstrip_plain_newline.
Qed.

Lemma split_join_newline (m : string) (ms : list string) :
  plain m = true -> Forall (fun x => plain x = true) ms ->
  map Str.strip (Str.split "," (Str.join "," (m :: ms) ++ Str.newline)) = m :: ms.
Proof.
  revert m. induction ms as [|x ms IH]; intros m Hm Hms.
  - cbn [Str.join String.concat]. rewrite split_plain_app by done. cbn.
    by rewrite strip_plain_newline.
  - inversion Hms as [|? ? Hx Hrest]; subst.
    change (Str.join "," (m :: x :: ms)) with (m ++ "," ++ Str.join "," (x :: ms)).
    rewrite !string_app_assoc, split_plain_app by done.
    change ("," ++ Str.join "," (x :: ms) ++ Str.newline)
      with (String "," (Str.join "," (x :: ms) ++ Str.newline)).
    cbn [Str.split Ascii.eqb Bool.eqb hd tl]. cbn [map].
    rewrite string_app_nil_r, strip_plain by done. f_equal. by apply IH.
Qed.

Definition one_line (s : string) : bool :=
  Str.all_chars (fun c => negb (Ascii.eqb c "010")) s.

Lemma all_chars_app (p : ascii -> bool) (s t : string) :
  Str.all_chars p (s ++ t) = Str.all_chars p s && Str.all_chars p t.
Proof.
  induction s as [|c s IH]; [reflexivity|].
  change (String c s ++ t) with (String c (s ++ t)). cbn. by rewrite IH, andb_assoc.
Qed.

Lemma one_line_app (s t : string) : one_line (s ++ t) = one_line s && one_line t.
Proof. apply all_chars_app. Qed.

Lemma readlines_one_line (s : string) :
  s <> "" -> one_line s = true -> Str.readlines s = [s].
Proof.
  induction s as [|c s IH]; intros Hne H; [done|].
  cbn in H. apply andb_prop in H as [Hc H]. cbn [Str.readlines].
  destruct (Ascii.eqb c "010"); [discriminate|].
  destruct s as [|d s]; [reflexivity|]. by rewrite IH.
Qed.

Lemma plain_one_line (m : string) : plain m = true -> one_line m = true.
Proof.
  induction m as [|c m IH]; intros H; [reflexivity|].
  cbn in H. apply andb_prop in H as [Hc H]. apply andb_prop in Hc as [Hc _].
  change (one_line (String c m)) with (negb (Ascii.eqb c "010") && one_line m).
  rewrite (IH H), andb_true_r.
  destruct (Ascii.eqb c "010") eqn:E; [|reflexivity].
  apply Ascii.eqb_eq in E. subst. discriminate.
Qed.

Lemma join_one_line (ms : list string) :
  Forall (fun m => plain m = true) ms -> one_line (Str.join "," ms) = true.
Proof.
  induction ms as [|m ms IH]; intros H; [reflexivity|].
  inversion H as [|? ? Hm Hms]; subst. destruct ms as [|x ms].
  - by apply plain_one_line.
  - change (Str.join "," (m :: x :: ms)) with (m ++ "," ++ Str.join "," (x :: ms)).
    rewrite !one_line_app. by rewrite (plain_one_line _ Hm), (IH Hms).
Qed.

(** Text without a carriage return is read as it is. *)
Definition unix_text (s : string) : bool :=
  Str.all_chars (fun c => negb (Ascii.eqb c "013")) s.

Lemma universal_newlines_unix (s : string) :
  unix_text s = true -> Str.universal_newlines s = s.
Proof.
  induction s as [|c s IH]; intros H; [reflexivity|].
  cbn in H. apply andb_prop in H as [Hc H]. cbn [Str.universal_newlines].
  destruct (Ascii.eqb c "013"); [discriminate|]. by rewrite (IH H).
Qed.

Lemma unix_text_app (s t : string) : unix_text (s ++ t) = unix_text s && unix_text t.
Proof. apply all_chars_app. Qed.

Lemma plain_unix_text (m : string) : plain m = true -> unix_text m = true.
Proof.
  induction m as [|c m IH]; intros H; [reflexivity|].
  cbn in H. apply andb_prop in H as [Hc H]. apply andb_prop in Hc as [Hc _].
  change (unix_text (String c m)) with (negb (Ascii.eqb c "013") && unix_text m).
  rewrite (IH H), andb_true_r.
  destruct (Ascii.eqb c "013") eqn:E; [|reflexivity].
  apply Ascii.eqb_eq in E. subst. discriminate.
Qed.

Lemma join_unix_text (ms : list string) :
  Forall (fun m => plain m = true) ms -> unix_text (Str.join "," ms) = true.
Proof.
  induction ms as [|m ms IH]; intros H; [reflexivity|].
  inversion H as [|? ? Hm Hms]; subst. destruct ms as [|x ms].
  - by apply plain_unix_text.
  - change (Str.join "," (m :: x :: ms)) with (m ++ "," ++ Str.join "," (x :: ms)).
    rewrite !unix_text_app. by rewrite (plain_unix_text _ Hm), (IH Hms).
Qed.

Lemma file_lines_one_line (s : string) :
  s <> "" -> one_line s = true -> unix_text s = true -> Str.file_lines s = [s].
Proof.
  intros Hne Hone Hunix. unfold Str.file_lines.
  rewrite universal_newlines_unix by exact Hunix. by apply readlines_one_line.
Qed.


Lemma for_each_app {W A} (pre post : list A) (body : A -> M W unit) (w w1 : W) :
  for_each pre body w = (w1, Ok tt) ->
  for_each (pre ++ post) body w = for_each post body w1.
Proof.
  revert w. induction pre as [|x pre IH]; intros w H; cbn in *.
  - unfold ret in H. by inversion H.
  - unfold bind in *. destruct (body x w) as [w' [e|[]]]; [discriminate|]. by apply IH.
Qed.

Lemma map_result_length {A B} (f : A -> result B) (xs : list A) (ys : list B) :
  map_result f xs = Ok ys -> length ys = length xs.
Proof.
  revert ys. induction xs as [|x xs IH]; intros ys H; cbn in H.
  - inversion H. reflexivity.
  - destruct (f x); [discriminate|]. destruct (map_result f xs); [discriminate|].
    inversion H. cbn. f_equal. by apply IH.
Qed.

Lemma map_result_lookup {A B} (f : A -> result B) (xs : list A) (ys : list B) :
  map_result f xs = Ok ys ->
  forall i x, xs !! i = Some x -> exists y, ys !! i = Some y /\ f x = Ok y.
Proof.
  revert ys. induction xs as [|x xs IH]; intros ys H i a Hi; [destruct i; discriminate|].
  cbn in H. destruct (f x) as [|b] eqn:Hf; [discriminate|].
  destruct (map_result f xs) as [|bs]; [discriminate|]. inversion H; subst.
  destruct i as [|i]; cbn in *.
  - inversion Hi; subst. eauto.
  - by apply IH.
Qed.

Lemma map_result_fails {A B} (f : A -> result B) (xs : list A) (x : A) (e : exn) :
  In x xs -> f x = Err e -> exists e', map_result f xs = Err e'.
Proof.
  induction xs as [|a xs IH]; intros Hin Hf; [destruct Hin|]. cbn.
  destruct (f a) as [e0|b] eqn:Ha; [eauto|].
  destruct Hin as [->|Hin]; [congruence|].
  destruct (IH Hin Hf) as [e' ->]. eauto.
Qed.

(** ** posixpath *)

Module Path.

Definition sep : ascii := "/"%char.

(** [p.rfind(sep) + 1] *)
Definition cut (p : string) : nat :=
  match Str.rfind sep p with
  | Some i => S i
  | None => 0
  end.

Definition basename (p : string) : string :=
  String.substring (cut p) (String.length p - cut p) p.

Definition dirname (p : string) : string :=
  let head := String.substring 0 (cut p) p in
  if negb (String.eqb head "") && negb (Str.all_chars (Ascii.eqb sep) head)
  then Str.rstrip_char sep head
  else head.

(** [os.path.join(a, b)] *)
Definition join (a b : string) : string :=
  if Str.startswith_char sep b then b
  else if String.eqb a "" || Str.endswith_char sep a then a ++ b
  else a ++ "/" ++ b.

(** [str(Path(a) / Path(b))] for POSIX paths: a root of two slashes is
    kept as it is, empty components and [.] are dropped, and a [b] that
    has a root replaces [a]. *)
Definition root (p : string) : string :=
  match p with
  | String "/" (String "/" (String "/" _)) => "/"
  | String "/" (String "/" _) => "//"
  | String "/" _ => "/"
  | _ => ""
  end.

Definition parts (p : string) : list string :=
  List.filter (fun x => negb (String.eqb x "") && negb (String.eqb x "."))
    (Str.split sep p).

Definition path_str (root : string) (parts : list string) : string :=
  match root, parts with
  | EmptyString, [] => "."
  | _, _ => root ++ Str.join "/" parts
  end.

Definition truediv (a b : string) : string :=
  if String.eqb (root b) "" then path_str (root a) (parts a ++ parts b)
  else path_str (root b) (parts b).

End Path.

Example dirname_ex : Path.dirname "sub/dir/rec.tsv" = "sub/dir".
Proof. reflexivity. Qed.
Example basename_ex : Path.basename "sub/dir/rec.tsv" = "rec.tsv".
Proof. reflexivity. Qed.
Example dirname_root_ex : Path.dirname "/rec.tsv" = "/".
Proof. reflexivity. Qed.
Example truediv_ex : Path.truediv "." "rec.tsv" = "rec.tsv".
Proof. reflexivity. Qed.
Example truediv_ex2 : Path.truediv "data//sub/" "./rec.tsv" = "data/sub/rec.tsv".
Proof. reflexivity. Qed.
Example truediv_ex3 : Path.truediv "data" "/abs/rec.tsv" = "/abs/rec.tsv".
Proof. reflexivity. Qed.
Example join_ex : Path.join "" ".rec.tsv.json" = ".rec.tsv.json".
Proof. reflexivity. Qed.

(** Facts on paths: a name without a separator, and a folder that
    neither is empty nor ends in a separator. *)
Definition flat (name : string) : bool :=
  Str.all_chars (fun c => negb (Ascii.eqb c Path.sep)) name.

Lemma rfind_flat (name : string) : flat name = true -> Str.rfind Path.sep name = None.
Proof.
  induction name as [|c name IH]; intros H; [reflexivity|].
  cbn in H. apply andb_prop in H as [Hc H]. cbn [Str.rfind]. rewrite (IH H).
  by destruct (Ascii.eqb c Path.sep).
Qed.

Lemma cut_nested (folder name : string) :
  flat name = true ->
  Path.cut (folder ++ String Path.sep name) = S (String.length folder).
Proof.
  intros H. unfold Path.cut. induction folder as [|c folder IH].
  - change ("" ++ String Path.sep name) with (String Path.sep name).
    cbn [Str.rfind]. by rewrite (rfind_flat _ H).
  - change (String c folder ++ String Path.sep name)
      with (String c (folder ++ String Path.sep name)).
    cbn [Str.rfind String.length].
    destruct (Str.rfind Path.sep (folder ++ String Path.sep name)); [|discriminate].
    by inversion IH.
Qed.

Lemma substring_whole (s : string) : String.substring 0 (String.length s) s = s.
Proof. induction s as [|c s IH]; [reflexivity|]. cbn. by rewrite IH. Qed.

Lemma substring_prefix (s t : string) :
  String.substring 0 (String.length s) (s ++ t) = s.
Proof.
  induction s as [|c s IH]; [by destruct t|].
  change (String c s ++ t) with (String c (s ++ t)). cbn. by rewrite IH.
Qed.

Lemma substring_suffix (s t : string) (n : nat) :
  String.substring (String.length s) n (s ++ t) = String.substring 0 n t.
Proof.
  induction s as [|c s IH]; [reflexivity|].
  change (String c s ++ t) with (String c (s ++ t)). cbn [String.length String.substring].
  exact IH.
Qed.

Lemma rstrip_char_sep (folder : string) :
  folder <> "" -> Str.endswith_char Path.sep folder = false ->
  Str.rstrip_char Path.sep (folder ++ "/") = folder /\
  Str.all_chars (Ascii.eqb Path.sep) (folder ++ "/") = false.
Proof.
  induction folder as [|c folder IH]; intros Hne Hend; [done|].
  change (String c folder ++ "/") with (String c (folder ++ "/")).
  cbn [Str.rstrip_char Str.all_chars].
  destruct folder as [|d folder].
  - cbn in Hend. change ("" ++ "/") with "/".
    change (Str.rstrip_char Path.sep "/") with "".
    change (Str.all_chars (Ascii.eqb Path.sep) "/") with true.
    rewrite Hend. split; [reflexivity|].
    rewrite Ascii.eqb_sym, Hend. reflexivity.
  - destruct IH as [IH1 IH2]; [done|exact Hend|].
    rewrite IH1, IH2. split; [reflexivity|]. apply andb_false_r.
Qed.

Lemma basename_nested (folder name : string) :
  flat name = true -> Path.basename (folder ++ String Path.sep name) = name.
Proof.
  intros H. unfold Path.basename. rewrite (cut_nested _ _ H).
  change (folder ++ String Path.sep name) with (folder ++ "/" ++ name).
  rewrite <- string_app_assoc.
  replace (S (String.length folder)) with (String.length (folder ++ "/"))
    by (rewrite string_length_app; cbn; lia).
  rewrite substring_suffix, !string_length_app.
  replace (String.length folder + String.length "/" + String.length name
           - (String.length folder + String.length "/"))%nat
    with (String.length name) by lia.
  apply substring_whole.
Qed.

Lemma dirname_nested (folder name : string) :
  flat name = true -> folder <> "" -> Str.endswith_char Path.sep folder = false ->
  Path.dirname (folder ++ String Path.sep name) = folder.
Proof.
  intros H Hne Hend. unfold Path.dirname. rewrite (cut_nested _ _ H).
  change (folder ++ String Path.sep name) with (folder ++ "/" ++ name).
  rewrite <- string_app_assoc.
  replace (S (String.length folder)) with (String.length (folder ++ "/"))
    by (rewrite string_length_app; cbn; lia).
  rewrite substring_prefix.
  destruct (rstrip_char_sep folder Hne Hend) as [Hstrip Hall]. rewrite Hall, Hstrip.
  destruct folder; [done|reflexivity].
Qed.

(** ** Python values and ["{:.5f}".format] *)

Inductive pyval : Type :=
  | VFloat (f : spec_float)
  | VInt (z : Z)
  | VStr (s : string)
  | VNone.

Module Fmt.

Local Open Scope Z_scope.

Definition digit (n : Z) : ascii := ascii_of_nat (48 + Z.to_nat (n mod 10)).

(** The five decimals of [n], which counts hundred-thousandths. *)
Definition frac5 (n : Z) : string :=
  String (digit (n / 10000)) (String (digit (n / 1000)) (String (digit (n / 100))
    (String (digit (n / 10)) (String (digit n) EmptyString)))).

Definition fixed5 (neg : bool) (n : Z) : string :=
  ((if neg then "-" else "") ++ pretty (n / 100000) ++ "." ++ frac5 (n mod 100000))%string.

(** Nearest integer to [num / den], ties to even. *)
Definition round_half_even (num den : Z) : Z :=
  let q := num / den in
  let r := num mod den in
  if 2 * r <? den then q
  else if den <? 2 * r then q + 1
  else if Z.even q then q else q + 1.

(** [m * 2^e] in hundred-thousandths, correctly rounded. *)
Definition scaled5 (m : positive) (e : Z) : Z :=
  if 0 <=? e then Z.pos m * 2 ^ e * 100000
  else round_half_even (Z.pos m * 100000) (2 ^ (- e)).

(** [float(z)] for an integer, as the magnitude of the float: the nearest
    one of 53 bits, ties to even; a magnitude of [2^1024] or more is none. *)
Definition int_to_float (z : Z) : result Z :=
  let a := Z.abs z in
  let bits := Z.log2 a + 1 in
  if bits <=? 53 then Ok a
  else
    let unit := 2 ^ (bits - 53) in
    let v := round_half_even a unit * unit in
    if 2 ^ 1024 <=? v then Err (OverflowError "int too large to convert to float")
    else Ok v.

Definition format_5f (v : pyval) : result string :=
  match v with
  | VFloat S754_nan => Ok "nan"%string
  | VFloat (S754_infinity s) => Ok (if s then "-inf" else "inf")%string
  | VFloat (S754_zero s) => Ok (fixed5 s 0)
  | VFloat (S754_finite s m e) => Ok (fixed5 s (scaled5 m e))
  | VInt z =>
      match int_to_float z with
      | inr a => Ok (fixed5 (z <? 0) (a * 100000))
      | inl e => Err e
      end
  | VStr _ => Err (ValueError "Unknown format code 'f' for object of type 'str'")
  | VNone => Err (TypeError "unsupported format string passed to NoneType.__format__")
  end.

Lemma digit_is_digit (n : Z) : Ascii.is_nat (digit n) <> None.
Proof.
  unfold digit. pose proof (Z.mod_pos_bound n 10 eq_refl) as Hb.
  assert (Hn : (Z.to_nat (n mod 10) < 10)%nat) by lia.
  destruct (Z.to_nat (n mod 10)) as [|[|[|[|[|[|[|[|[|[|k]]]]]]]]]]; cbn; try discriminate.
  lia.
Qed.

(** Five characters, each of them a digit, stand behind the point. *)
Lemma fixed5_five_decimals (neg : bool) (n : Z) :
  exists whole decimals,
    fixed5 neg n = (whole ++ "." ++ decimals)%string /\
    String.length decimals = 5%nat /\
    forall i c, String.get i decimals = Some c -> Ascii.is_nat c <> None.
Proof.
  exists ((if neg then "-" else "") ++ pretty (n / 100000))%string, (frac5 (n mod 100000)).
  split; [|split].
  - unfold fixed5. by rewrite string_app_assoc.
  - reflexivity.
  - intros i c Hi. unfold frac5 in Hi.
    do 5 (destruct i as [|i]; [inversion Hi; apply digit_is_digit|]). discriminate.
Qed.

(** A value that [format_5f] formats becomes [nan], [inf], [-inf] or a
    text with a point and exactly five digits behind it. *)
Lemma format_5f_shape :
  forall (v : pyval) (s : string),
    format_5f v = Ok s ->
    s = "nan"%string \/ s = "inf"%string \/ s = "-inf"%string \/
    exists whole decimals,
      s = (whole ++ "." ++ decimals)%string /\
      String.length decimals = 5%nat /\
      forall i c, String.get i decimals = Some c -> Ascii.is_nat c <> None.
Proof.
  intros v s H. destruct v as [f|z|t|]; unfold format_5f in H; try discriminate.
  - destruct f as [sg|sg| |sg m e]; inversion H; subst; clear H.
    + do 3 right. apply fixed5_five_decimals.
    + destruct sg; tauto.
    + tauto.
    + do 3 right. apply fixed5_five_decimals.
  - destruct (int_to_float z) as [e|a]; inversion H; subst.
    do 3 right. apply fixed5_five_decimals.
Qed.

Lemma round_half_even_nearest (num den : Z) :
  0 < den -> 2 * Z.abs (num - round_half_even num den * den) <= den.
Proof.
  intros Hden. unfold round_half_even.
  pose proof (Z.div_mod num den ltac:(lia)) as Hdm.
  pose proof (Z.mod_pos_bound num den Hden) as Hb.
  destruct (2 * (num mod den) <? den) eqn:H1; [apply Z.ltb_lt in H1; nia|].
  apply Z.ltb_ge in H1.
  destruct (den <? 2 * (num mod den)) eqn:H2; [apply Z.ltb_lt in H2; nia|].
  apply Z.ltb_ge in H2. destruct (Z.even (num / den)); nia.
Qed.

(** The count of hundred-thousandths that is printed for the float
    [m * 2^e] is exact when [e] is not negative and otherwise the nearest
    one: it differs from the exact value by half a unit at most, and on a
    tie it is even. *)
Lemma scaled5_is_nearest :
  forall (m : positive) (e : Z),
    (0 <= e -> scaled5 m e = Z.pos m * 2 ^ e * 100000) /\
    (e < 0 ->
     2 * Z.abs (Z.pos m * 100000 - scaled5 m e * 2 ^ (- e)) <= 2 ^ (- e) /\
     (2 * Z.abs (Z.pos m * 100000 - scaled5 m e * 2 ^ (- e)) = 2 ^ (- e) ->
      Z.even (scaled5 m e) = true)).
Proof.
  intros m e. unfold scaled5. split; intros He.
  - by rewrite (proj2 (Z.leb_le 0 e) He).
  - rewrite (proj2 (Z.leb_gt 0 e) He).
    assert (Hden : 0 < 2 ^ (- e)) by (apply Z.pow_pos_nonneg; lia).
    split; [by apply round_half_even_nearest|].
    generalize dependent (2 ^ (- e)). intros den Hden.
    generalize (Z.pos m * 100000). intros num. unfold round_half_even.
    pose proof (Z.div_mod num den ltac:(lia)) as Hdm.
    pose proof (Z.mod_pos_bound num den Hden) as Hb.
    destruct (2 * (num mod den) <? den) eqn:H1; [apply Z.ltb_lt in H1; nia|].
    apply Z.ltb_ge in H1.
    destruct (den <? 2 * (num mod den)) eqn:H2; [apply Z.ltb_lt in H2; nia|].
    destruct (Z.even (num / den)) eqn:Hev; intros _; [exact Hev|].
    rewrite Z.even_add, Hev. reflexivity.
Qed.

End Fmt.

(** 13 * 2^6 is 832.0, 2^-3 is 0.125, and 3 * 2^-20 is below 0.000005. *)
Example format_ex1 : Fmt.format_5f (VFloat (S754_finite false 13 6)) = Ok "832.00000".
Proof. vm_compute. reflexivity. Qed.
Example format_ex2 : Fmt.format_5f (VFloat (S754_finite true 1 (-3))) = Ok "-0.12500".
Proof. vm_compute. reflexivity. Qed.
Example format_ex3 : Fmt.format_5f (VFloat (S754_finite false 3 (-20))) = Ok "0.00000".
Proof. vm_compute. reflexivity. Qed.
Example format_ex5 : Fmt.format_5f (VInt (2 ^ 53 + 1)) = Ok "9007199254740992.00000".
Proof. vm_compute. reflexivity. Qed.
Example format_ex6 :
  Fmt.format_5f (VInt (- 2 ^ 1024)) = Err (OverflowError "int too large to convert to float").
Proof. vm_compute. reflexivity. Qed.
Example format_ex4 : Fmt.format_5f (VInt 7) = Ok "7.00000".
Proof. vm_compute. reflexivity. Qed.

(** ** cli/run.py *)

Module Run.

(** What the workflow does to the outside, in order. *)
Inductive event : Type :=
  | EvPrint (line : string)
  | EvWarn (msg : string)
  | EvLoadHistory (path : string)
  | EvLoad (fname : string)
  | EvFilter (method : string)
  | EvDetect
  | EvEdit
  | EvSaveHistory (path : string)
  | EvHRV.

(** [disk] holds the files; [pending] is the text that [dest.write] has
    handed to the buffered writer and that has not reached the file. *)
Record world : Type := World {
  disk : gmap string string;
  pending : string;
  trace : list event
}.

Inductive cutoffs : Type :=
  | CutPair (low high : spec_float)
  | CutInt (c : Z).

Definition MODALITIES : list (string * (cutoffs * string)) :=
  [ ("ECG", (CutPair (S754_finite false 5 0) (S754_finite false 15 0), "bandpass"));
    ("PPG", (CutInt 2, "lowpass"));
    ("RESP", (CutPair (S754_finite false 7205759403792794 (-57))
                      (S754_finite false 1 (-1)), "bandpass")) ].

Definition ATTR_CONV : list (string * string) :=
  [ ("Average NN intervals", "avgnn");
    ("Root mean square of successive differences", "rmssd");
    ("Standard deviation of NN intervals", "sdnn");
    ("Standard deviation of successive differences", "sdsd");
    ("Number of successive differences >50 ms", "nn50");
    ("Percent of successive differences >50 ms", "pnn50");
    ("Number of successive differences >20 ms", "nn20");
    ("Percent of successive differences >20 ms", "pnn20");
    ("High frequency HRV hfHRV", "hf");
    ("Log of high frequency HRV, log(hfHRV)", "hf_log");
    ("Low frequency HRV, lfHRV", "lf");
    ("Log of low frequency HRV, log(lfHRV)", "lf_log");
    ("Very low frequency HRV, vlfHRV", "vlf");
    ("Log of very low frequency HRV, log(vlfHRV)", "vlf_log");
    ("Ratio of lfHRV : hfHRV", "lftohf");
    ("Peak frequency of hfHRV", "hf_peak");
    ("Peak frequency of lfHRV", "lf_peak") ].

Definition no_measurements_msg : string :=
  "It looks like you didn't select any of the options specifying desired output measurements. Please select at least one measurement and try again.".

Definition header_warning : string :=
  "Desired output file already exists and requested measurements do not match with measurements in existing output file. Using the pre-existing measurements, instead.".

(** [getattr(hrv, attr, "")] on an object whose attributes are [hrv]. *)
Definition getattr (hrv : gmap string pyval) (attr : string) (default : pyval) : pyval :=
  match hrv !! attr with
  | Some v => v
  | None => default
  end.

(** ["filename," + ",".join(measurements)] *)
Definition header (measurements : list string) : string :=
  "filename," ++ Str.join "," measurements.

(** [[f.strip() for f in eheader.split(",")[1:]]] *)
Definition header_measurements (eheader : string) : list string :=
  map Str.strip (tail (Str.split "," eheader)).

(** The name of the history file of [fname]. *)
Definition history_name (fname : string) : string :=
  Path.join (Path.dirname fname) ("." ++ Path.basename fname ++ ".json").

(** [["{:.5f}".format(getattr(hrv, attr, "")) for attr in measurements]] *)
Definition outputs (hrv : gmap string pyval) (measurements : list string)
  : result (list string) :=
  map_result (fun attr => Fmt.format_5f (getattr hrv attr (VStr ""))) measurements.

(** The row of one file: [",".join([fname] + outputs) + "\n"]. *)
Definition row (fname : string) (outs : list string) : string :=
  Str.join "," (fname :: outs) ++ Str.newline.

(** The names in [ATTR_CONV] have no comma and no white space, so the
    header that the workflow writes gives the measurements back. *)
Lemma assoc_plain (d : list (string * string)) (k v : string) :
  forallb (fun kv => plain (snd kv)) d = true -> assoc d k = Some v -> plain v = true.
Proof.
  induction d as [|[k' v'] d IH]; intros Hall Hk; [discriminate|].
  cbn in Hall, Hk. apply andb_prop in Hall as [Hv Hall].
  destruct (String.eqb k' k); [|auto]. inversion Hk; subst. exact Hv.
Qed.

Lemma requested_plain (requested measurements : list string) :
  map_result (dict_get ATTR_CONV) requested = Ok measurements ->
  Forall (fun m => plain m = true) measurements.
Proof.
  revert measurements. induction requested as [|k ks IH]; intros ms H; cbn in H.
  - inversion H. constructor.
  - destruct (dict_get ATTR_CONV k) as [|v] eqn:Hk; [discriminate|].
    destruct (map_result (dict_get ATTR_CONV) ks) as [|vs]; [discriminate|].
    inversion H; subst. constructor; [|by apply IH].
    unfold dict_get in Hk. destruct (assoc ATTR_CONV k) as [v'|] eqn:Ha; [|discriminate].
    inversion Hk; subst. by apply (assoc_plain ATTR_CONV k).
Qed.

Lemma header_measurements_of_header (requested measurements : list string) :
  map_result (dict_get ATTR_CONV) requested = Ok measurements ->
  measurements <> [] ->
  header_measurements (header measurements ++ Str.newline) = measurements.
Proof.
  intros H Hne. apply requested_plain in H.
  destruct measurements as [|m ms]; [done|]. inversion H; subst.
  unfold header_measurements, header.
  rewrite string_app_assoc.
  change ("filename," ++ Str.join "," (m :: ms) ++ Str.newline)
    with ("filename" ++ String "," (Str.join "," (m :: ms) ++ Str.newline)).
  rewrite (split_plain_app "filename") by reflexivity.
  cbn [Str.split Ascii.eqb Bool.eqb hd tl tail].
  by apply split_join_newline.
Qed.

(** A row is computed only when every measurement is an attribute of
    the result, and a measurement that is not one ends the computation
    of the row: ["{:.5f}"] does not format the default [""]. *)
Lemma outputs_fields (hrv : gmap string pyval) (measurements outs : list string) :
  outputs hrv measurements = Ok outs ->
  length outs = length measurements /\
  forall i attr, measurements !! i = Some attr ->
    exists v out, hrv !! attr = Some v /\ outs !! i = Some out /\ Fmt.format_5f v = Ok out.
Proof.
  intros H. split; [exact (map_result_length _ _ _ H)|].
  intros i attr Hi.
  destruct (map_result_lookup _ _ _ H i attr Hi) as (out & Ho & Hf).
  unfold getattr in Hf. destruct (hrv !! attr) as [v|]; [|discriminate].
  by exists v, out.
Qed.

Lemma outputs_missing_raises (hrv : gmap string pyval) (measurements : list string)
    (attr : string) :
  In attr measurements -> hrv !! attr = None ->
  exists e, outputs hrv measurements = Err e.
Proof.
  intros Hin Hnone. unfold outputs.
  apply (map_result_fails _ _ attr
           (ValueError "Unknown format code 'f' for object of type 'str'") Hin).
  unfold getattr. by rewrite Hnone.
Qed.



(** X11: every row that is computed has one field for each measurement,
    and each field is [nan], [inf], [-inf] or a number with a point and
    exactly five digits behind it. *)
Theorem row_fields_have_five_decimals :
  forall (hrv : gmap string pyval) (measurements outs : list string),
    outputs hrv measurements = Ok outs ->
    length outs = length measurements /\
    forall out, In out outs ->
      out = "nan" \/ out = "inf" \/ out = "-inf" \/
      exists whole decimals,
        out = whole ++ "." ++ decimals /\
        String.length decimals = 5%nat /\
        forall i c, String.get i decimals = Some c -> Ascii.is_nat c <> None.
Proof.
  intros hrv ms outs H.
  pose proof (map_result_length _ _ _ H) as Hlen. split; [exact Hlen|].
  intros out Hin. apply list_elem_of_In, list_elem_of_lookup_1 in Hin as [i Hi].
  assert (Hattr : is_Some (ms !! i)).
  { apply lookup_lt_is_Some. rewrite <- Hlen. by apply (lookup_lt_Some _ _ out). }
  destruct Hattr as [attr Hattr].
  destruct (map_result_lookup _ _ _ H i attr Hattr) as (out' & Ho & Hf).
  rewrite Hi in Ho. inversion Ho; subst out'.
  by apply (Fmt.format_5f_shape (getattr hrv attr (VStr ""))).
Qed.

(** X13: the history file of a recording is a hidden file beside it: the
    name of the recording between a point and [.json], in the folder of
    the recording. *)
Theorem history_file_is_a_hidden_sibling :
  forall (name : string),
    flat name = true ->
    history_name name = "." ++ name ++ ".json" /\
    forall (folder : string),
      folder <> "" -> Str.endswith_char Path.sep folder = false ->
      history_name (folder ++ "/" ++ name) = folder ++ "/." ++ name ++ ".json".
Proof.
  intros name H. split.
  - unfold history_name, Path.dirname, Path.basename, Path.cut.
    rewrite (rfind_flat _ H). rewrite Nat.sub_0_r, substring_whole.
    by destruct name.
  - intros folder Hne Hend. unfold history_name.
    change (folder ++ "/" ++ name) with (folder ++ String Path.sep name).
    rewrite (basename_nested _ _ H), (dirname_nested _ _ H Hne Hend).
    unfold Path.join.
    change (Str.startswith_char Path.sep ("." ++ name ++ ".json")) with false.
    cbn match. rewrite Hend, orb_false_r.
    destruct folder; [done|reflexivity].
Qed.

(** X14: the header line that the workflow writes for a non-empty request
    gives back, read with its line end as the workflow reads a report, the
    measurements it was written for, in their order. *)
Theorem header_round_trip :
  forall (requested measurements : list string),
    map_result (dict_get ATTR_CONV) requested = Ok measurements ->
    measurements <> [] ->
    header_measurements (header measurements ++ Str.newline) = measurements.
Proof. exact header_measurements_of_header. Qed.

Section Workflow.

(** The record type of the library and the library functions that the
    workflow calls. *)
Variable Physio : Type.
Variable glob : gmap string string -> string -> list string.
Variable relpath : string -> string.
Variable load_rtpeaks load_physio :
  gmap string string -> string -> spec_float -> option Z -> result Physio.
Variable load_history : gmap string string -> string -> result Physio.
Variable filter_physio : Physio -> cutoffs -> string -> result Physio.
Variable peakfind_physio : Physio -> spec_float -> result Physio.
Variable edit_physio : Physio -> result Physio.
Variable save_history : string -> Physio -> result string.
Variable HRV : Physio -> result (gmap string pyval).
(** Whether the buffered writer hands its pending text to the file once
    it holds that text. *)
Variable spills : string -> bool.

Definition loader : Type :=
  gmap string string -> string -> spec_float -> option Z -> result Physio.

Definition LOADERS : list (string * loader) :=
  [ ("rtpeaks", load_rtpeaks); ("MRI", load_physio) ].

Definition emit (e : event) : M world unit :=
  modify (fun w => World (disk w) (pending w) (trace w ++ [e])).

Definition print (line : string) : M world unit := emit (EvPrint line).

(** [os.path.exists] *)
Definition exists_ (path : string) : M world bool :=
  gets (fun w => bool_decide (is_Some (disk w !! path))).

(** [open(path, "r")] followed by [readlines] *)
Definition read_lines (path : string) : M world (list string) :=
  fun w => match disk w !! path with
           | Some text => (w, Ok (Str.file_lines text))
           | None => (w, Err (FileNotFoundError path))
           end.

(** [open(output, "a+")]: the file is created when it is missing. *)
Definition open_append (output : string) : M world unit :=
  modify (fun w => match disk w !! output with
                   | Some _ => w
                   | None => World (<[output := ""]> (disk w)) (pending w) (trace w)
                   end).

Definition flushed (output : string) (w : world) : world :=
  World (<[output := default "" (disk w !! output) ++ pending w]> (disk w)) "" (trace w).

(** [dest.write(text)] *)
Definition buffered (output text : string) (w : world) : world :=
  let w' := World (disk w) (pending w ++ text) (trace w) in
  if spills (pending w') then flushed output w' else w'.

Definition write (output text : string) : M world unit :=
  modify (buffered output text).

(** Everything written to [output] so far, on the disk or pending. *)
Definition written (output : string) (w : world) : string :=
  default "" (disk w !! output) ++ pending w.

(** [with open(output, "a+") as dest: body]: the file is closed, and
    its pending text written, however the body ends. *)
Definition with_open_append {A} (output : string) (body : M world A) : M world A :=
  fun w => match bind (open_append output) (fun _ => body) w with
           | (w', r) => (flushed output w', r)
           end.

Definition call_load_history (outname : string) : M world Physio :=
  let* _ := emit (EvLoadHistory outname) in
  fun w => (w, load_history (disk w) outname).

Definition call_load (load_func : loader) (fname : string) (fs : spec_float)
    (channel : option Z) : M world Physio :=
  let* _ := emit (EvLoad fname) in
  fun w => (w, load_func (disk w) fname fs channel).

Definition call_filter (data : Physio) (flims : cutoffs) (method : string)
  : M world Physio :=
  let* _ := emit (EvFilter method) in lift (filter_physio data flims method).

Definition call_peakfind (data : Physio) (thresh : spec_float) : M world Physio :=
  let* _ := emit EvDetect in lift (peakfind_physio data thresh).

Definition call_edit (data : Physio) : M world Physio :=
  let* _ := emit EvEdit in lift (edit_physio data).

Definition call_save_history (outname : string) (data : Physio) : M world unit :=
  let* _ := emit (EvSaveHistory outname) in
  let* text := lift (save_history outname data) in
  modify (fun w => World (<[outname := text]> (disk w)) (pending w) (trace w)).

Definition call_HRV (data : Physio) : M world (gmap string pyval) :=
  let* _ := emit EvHRV in lift (HRV data).

Section Args.

Variables (file_template modality : string) (fs : spec_float).
Variables (source : string) (channel : Z) (output : string).
Variables (savehistory noedit : bool) (thresh : spec_float).

(** The body of [for fname in files]. *)
Definition process_file (load_func : loader) (measurements : list string)
    (fname0 : string) : M world unit :=
  let fname := relpath fname0 in
  let* _ := print ("Currently processing " ++ fname) in
  let outname := history_name fname in
  let* found := exists_ outname in
  let* data :=
    (if found : bool then call_load_history outname
     else
       let* data :=
         (if String.eqb source "rtpeaks"
          then call_load load_func fname fs (Some channel)
          else call_load load_func fname fs None) in
       let* (flims, method) := lift (dict_get MODALITIES modality) in
       let* data := call_filter data flims method in
       call_peakfind data thresh) in
  let* data := (if negb noedit then call_edit data else ret data) in
  let* _ := (if savehistory then call_save_history outname data else ret tt) in
  let* hrv := call_HRV data in
  let* outs := lift (outputs hrv measurements) in
  write output (row fname outs).

(** Lines 176 to 195: the header to write and the measurements to
    report, given the requested ones. *)
Definition check_header (measurements : list string)
  : M world (list string * string) :=
  let head := header measurements in
  let* found := exists_ output in
  if found : bool then
    let* lines := read_lines output in
    let* eheader :=
      lift (match lines with
            | l :: _ => Ok l
            | [] => Err (IndexError "list index out of range")
            end) in
    let* measurements' :=
      (if bool_decide (eheader <> head) then
         let* _ := emit (EvWarn header_warning) in
         ret (header_measurements eheader)
       else ret measurements) in
    ret (measurements', "")
  else ret (measurements, head ++ Str.newline).

(** Lines 197 to 241: the [with] block. *)
Definition write_report (load_func : loader) (measurements : list string)
    (head : string) (files : list string) : M world unit :=
  with_open_append output
    (let* _ := write output head in
     for_each files (process_file load_func measurements)).

Definition workflow (measurements : option (list string)) : M world unit :=
  let* _ := print ("OUTPUT FILE:" ++ Str.tab ++ Str.tab ++ output ++ Str.newline) in
  let* _ := print ("FILE TEMPLATE:" ++ Str.tab ++ file_template ++ Str.newline) in
  let* files := gets (fun w => glob (disk w) file_template) in
  let* requested :=
    match measurements with
    | Some ms =>
        let* _ := print ("REQUESTED MEASUREMENTS: " ++ Str.join ", " ms ++ Str.newline) in
        ret ms
    | None => raise (TypeError no_measurements_msg)
    end in
  let* measurements := lift (map_result (dict_get ATTR_CONV) requested) in
  let* load_func := lift (dict_get LOADERS source) in
  let* (measurements, head) := check_header measurements in
  write_report load_func measurements head files.

Lemma written_flushed (w : world) :
  written output (flushed output w) = written output w /\
  disk (flushed output w) !! output = Some (written output w).
Proof.
  unfold written, flushed; cbn. rewrite lookup_insert_eq. cbn.
  by rewrite string_app_nil_r.
Qed.

Lemma written_buffered (text : string) (w : world) :
  written output (buffered output text w) = written output w ++ text.
Proof.
  unfold buffered. cbn. destruct (spills _).
  - rewrite (proj1 (written_flushed _)). unfold written. cbn.
    by rewrite string_app_assoc.
  - unfold written. cbn. by rewrite string_app_assoc.
Qed.

Lemma trace_buffered (text : string) (w : world) :
  trace (buffered output text w) = trace w.
Proof. unfold buffered. cbn. by destruct (spills _). Qed.

Lemma disk_buffered (text path : string) (w : world) :
  path <> output -> disk (buffered output text w) !! path = disk w !! path.
Proof.
  intros Hne. unfold buffered. cbn. destruct (spills _); [|reflexivity].
  unfold flushed. cbn. by rewrite lookup_insert_ne.
Qed.

(** The library calls that redo the work a history file saves. *)
Definition recomputes (e : event) : bool :=
  match e with
  | EvLoad _ | EvFilter _ | EvDetect => true
  | _ => false
  end.

Ltac step :=
  match goal with
  | |- context [if ?x then _ else _] => destruct x eqn:?
  | |- context [match ?x with _ => _ end] =>
      match type of x with
      | sum _ _ => destruct x eqn:?
      | result _ => destruct x eqn:?
      | option _ => destruct x eqn:?
      | prod _ _ => is_var x; destruct x
      end
  end; cbn.

Ltac run :=
  unfold process_file, call_load_history, call_load, call_filter, call_peakfind,
    call_edit, call_save_history, call_HRV, write, print, emit, exists_,
    bind, ret, raise, lift, gets, modify; cbn.

(** C1: a file whose history file exists is loaded from it, and the
    loader, the filter and the peak detector are not called for it;
    whenever one of them is called for a file, its history file was
    missing. *)
Theorem history_file_is_preferred :
  forall (load_func : loader) (measurements : list string) (fname : string)
         (w : world),
    let outname := history_name (relpath fname) in
    exists evs : list event,
      trace (fst (process_file load_func measurements fname w)) = (trace w ++ evs)%list /\
      (is_Some (disk w !! outname) ->
         In (EvLoadHistory outname) evs /\
         forall e, In e evs -> recomputes e = false) /\
      ((exists e, In e evs /\ recomputes e = true) -> disk w !! outname = None).
Proof.
  clear file_template.
  intros load_func ms fname w outname.
  destruct (disk w !! outname) as [text|] eqn:Hd.
  - assert (Hgo : exists evs, trace (fst (process_file load_func ms fname w)) = (trace w ++ evs)%list /\
              In (EvLoadHistory outname) evs /\ forall e, In e evs -> recomputes e = false).
    { run; fold outname; rewrite Hd;
      rewrite bool_decide_true by eauto; cbn;
      repeat step; cbn; rewrite ?trace_buffered; cbn; rewrite <- ?app_assoc; cbn;
        (eexists; split; [reflexivity|]; split; [cbn; tauto|]);
        intros ev Hev; cbn in Hev; intuition (subst; reflexivity). }
    destruct Hgo as (evs & Ht & Hin & Hno).
    exists evs. split; [exact Ht|]. split; [auto|].
    intros (e & He & Hr). rewrite (Hno e He) in Hr. discriminate.
  - run; fold outname; rewrite Hd;
    rewrite bool_decide_false by (intros [? ?]; discriminate); cbn;
    repeat step; cbn; rewrite ?trace_buffered; cbn; rewrite <- ?app_assoc; cbn;
      (eexists; split; [reflexivity|]; split; [intros [? ?]; discriminate|]);
      reflexivity.
Qed.

(** What one turn of the loop adds to the report: a row of the
    relative path and one field for each measurement when it ends
    normally, nothing when it raises. *)
Lemma process_file_written (load_func : loader) (measurements : list string)
    (fname : string) (w w' : world) (r : result unit) :
  process_file load_func measurements fname w = (w', r) ->
  (savehistory = true -> history_name (relpath fname) <> output) ->
  match r with
  | inr _ => exists hrv outs,
      outputs hrv measurements = Ok outs /\
      written output w' = written output w ++ row (relpath fname) outs
  | inl _ => written output w' = written output w
  end.
Proof.
  intros H Hname. revert H. run.
  repeat step; intros H; inversion H; subst; clear H;
    try (eexists _, _; split; [eassumption|]);
    rewrite ?written_buffered; unfold written; cbn;
    rewrite ?lookup_insert_ne by auto; reflexivity.
Qed.

(** The world in which the loop starts: the report is open and the
    header handed to the writer. *)
Definition opened (head : string) (w : world) : world :=
  buffered output head (fst (open_append output w)).

(** [r] is a row of [fname] with one field for each measurement. *)
Definition row_of (measurements : list string) (fname r : string) : Prop :=
  exists hrv outs,
    outputs hrv measurements = Ok outs /\ r = row (relpath fname) outs.

Definition apart (files : list string) : Prop :=
  savehistory = true ->
  forall fname, In fname files -> history_name (relpath fname) <> output.

Lemma loop_written (load_func : loader) (measurements : list string)
    (files : list string) (w w' : world) :
  for_each files (process_file load_func measurements) w = (w', Ok tt) ->
  apart files ->
  exists rows, Forall2 (row_of measurements) files rows /\
    written output w' = written output w ++ String.concat "" rows.
Proof.
  revert w. induction files as [|f files IH]; intros w H Hap.
  - inversion H; subst. exists []. split; [constructor|].
    cbn. by rewrite string_app_nil_r.
  - cbn in H. unfold bind in H.
    destruct (process_file load_func measurements f w) as [w1 [e|[]]] eqn:Hf;
      [discriminate|].
    apply process_file_written in Hf; [|intros Hs; apply Hap; [exact Hs|by left]].
    destruct Hf as (hrv & outs & Ho & Hw).
    destruct (IH w1 H) as (rows & Hrows & Hw').
    { intros Hs g Hg. apply Hap; [exact Hs|by right]. }
    exists (row (relpath f) outs :: rows). split.
    + constructor; [by exists hrv, outs|exact Hrows].
    + rewrite Hw', Hw. cbn [String.concat].
      destruct rows as [|r rows]; cbn [String.concat].
      * by rewrite !string_app_nil_r.
      * by rewrite string_app_assoc.
Qed.

Lemma write_report_unfold (load_func : loader) (measurements : list string)
    (head : string) (files : list string) (w : world) :
  write_report load_func measurements head files w =
  let '(w', r) := for_each files (process_file load_func measurements) (opened head w) in
  (flushed output w', r).
Proof. reflexivity. Qed.

Lemma write_report_raises (load_func : loader) (measurements : list string)
    (head : string) (done : list string) (fname : string) (rest : list string)
    (w w1 w2 : world) (e : exn) :
  for_each done (process_file load_func measurements) (opened head w) = (w1, Ok tt) ->
  process_file load_func measurements fname w1 = (w2, Err e) ->
  write_report load_func measurements head (done ++ fname :: rest) w =
    (flushed output w2, Err e).
Proof.
  intros Hdone Hf.
  rewrite write_report_unfold, (for_each_app _ _ _ _ _ Hdone).
  cbn. unfold bind. by rewrite Hf.
Qed.


(** The loop body never flushes: a row that the writer does not spill
    is not in the report file when the file is completed. *)
Lemma completed_row_waits_for_the_writer (load_func : loader)
    (measurements : list string) (fname : string) (w w' : world) :
  process_file load_func measurements fname w = (w', Ok tt) ->
  (savehistory = true -> history_name (relpath fname) <> output) ->
  (forall text, spills (pending w ++ text) = false) ->
  disk w' !! output = disk w !! output.
Proof.
  clear file_template.
  intros H Hname Hspill. revert H. run.
  repeat step; intros H; inversion H; subst; clear H;
    unfold buffered; cbn; rewrite Hspill; cbn;
    rewrite ?lookup_insert_ne by auto; reflexivity.
Qed.

(** What the [with] block does give: the rows of the files that were
    completed are in the report file once an exception raised by a later
    file has left the block, the place where the pending text is
    written. *)
Theorem completed_rows_survive_an_exception :
  forall (load_func : loader) (measurements : list string) (head : string)
         (done : list string) (fname : string) (rest : list string)
         (w w1 w2 : world) (e : exn),
    apart (done ++ [fname]) ->
    for_each done (process_file load_func measurements) (opened head w) = (w1, Ok tt) ->
    process_file load_func measurements fname w1 = (w2, Err e) ->
    exists rows,
      Forall2 (row_of measurements) done rows /\
      disk (fst (write_report load_func measurements head (done ++ fname :: rest) w))
        !! output
      = Some (written output (fst (open_append output w)) ++ head
              ++ String.concat "" rows).
Proof.
  intros lf ms head done f rest w w1 w2 e Hap Hdone Hf.
  rewrite (write_report_raises _ _ _ _ _ rest _ _ _ _ Hdone Hf). cbn [fst].
  destruct (loop_written _ _ _ _ _ Hdone) as (rows & Hrows & Hw).
  { intros Hs g Hg. apply Hap; [exact Hs|]. apply in_or_app. by left. }
  exists rows. split; [exact Hrows|].
  rewrite (proj2 (written_flushed w2)). f_equal.
  apply process_file_written in Hf.
  - cbn in Hf. rewrite Hf, Hw. unfold opened. rewrite written_buffered.
    by rewrite string_app_assoc.
  - intros Hs. apply Hap; [exact Hs|]. apply in_or_app. right. by left.
Qed.

(** The header row of the report format, with or without its line
    end, names the measurements [ms]. *)
Definition names_measurements (eheader : string) (ms : list string) : Prop :=
  eheader = header ms \/ eheader = header ms ++ Str.newline.

Definition announced (requested : list string) (w : world) : world :=
  World (disk w) (pending w)
    (trace w ++
     [ EvPrint ("OUTPUT FILE:" ++ Str.tab ++ Str.tab ++ output ++ Str.newline);
       EvPrint ("FILE TEMPLATE:" ++ Str.tab ++ file_template ++ Str.newline);
       EvPrint ("REQUESTED MEASUREMENTS: " ++ Str.join ", " requested ++ Str.newline) ]).



Lemma workflow_unfold (requested measurements : list string) (load_func : loader)
    (w : world) :
  map_result (dict_get ATTR_CONV) requested = Ok measurements ->
  dict_get LOADERS source = Ok load_func ->
  workflow (Some requested) w =
  (let* (ms, head) := check_header measurements in
   write_report load_func ms head (glob (disk w) file_template)) (announced requested w).
Proof.
  intros Hm Hl. unfold workflow, print, emit, bind, modify, gets, lift, ret.
  cbn. rewrite Hm, Hl. unfold announced. rewrite <- !app_assoc. reflexivity.
Qed.


Lemma empty_header_keeps_file (text : string) (w : world) :
  disk w !! output = Some text -> pending w = "" ->
  written output (opened "" w) = text.
Proof.
  intros Hd Hp. unfold opened. rewrite written_buffered.
  unfold open_append, modify. cbn. rewrite Hd. unfold written.
  rewrite Hd, Hp. cbn. by rewrite !string_app_nil_r.
Qed.



Lemma workflow_without_measurements (w : world) :
  workflow None w =
    (World (disk w) (pending w)
       (trace w ++
        [ EvPrint ("OUTPUT FILE:" ++ Str.tab ++ Str.tab ++ output ++ Str.newline);
          EvPrint ("FILE TEMPLATE:" ++ Str.tab ++ file_template ++ Str.newline) ]),
     Err (TypeError no_measurements_msg)).
Proof.
  unfold workflow, print, emit, bind, modify, gets, raise. cbn.
  by rewrite <- !app_assoc.
Qed.

(** *** Further properties of the loop body *)

(** X1: a file that is processed to the end adds one line to the report:
    its relative path, then one field for each measurement, in their
    order, then a line end; a file whose processing raises adds nothing. *)
Theorem completed_file_appends_one_row :
  forall (load_func : loader) (measurements : list string) (fname : string)
         (w w' : world) (r : result unit),
    process_file load_func measurements fname w = (w', r) ->
    (savehistory = true -> history_name (relpath fname) <> output) ->
    match r with
    | inr _ => exists outs,
        length outs = length measurements /\
        written output w' =
          written output w ++ Str.join "," (relpath fname :: outs) ++ Str.newline
    | inl _ => written output w' = written output w
    end.
Proof.
  intros lf ms f w w' r H Hname.
  pose proof (process_file_written _ _ _ _ _ _ H Hname) as Hw.
  destruct r as [e|[]]; [exact Hw|].
  destruct Hw as (hrv & outs & Ho & Hw). exists outs. split; [|exact Hw].
  exact (proj1 (outputs_fields _ _ _ Ho)).
Qed.


(** X3: with [noedit] set the editor is never called; without it the
    editor is called for every file that is processed to the end, a file
    loaded from its history included. *)
Theorem noedit_skips_the_editor :
  forall (load_func : loader) (measurements : list string) (fname : string)
         (w : world),
    exists evs,
      trace (fst (process_file load_func measurements fname w)) = (trace w ++ evs)%list /\
      (noedit = true -> ~ In EvEdit evs) /\
      (noedit = false ->
       snd (process_file load_func measurements fname w) = Ok tt -> In EvEdit evs).
Proof.
  clear file_template.
  intros lf ms f w. run.
  repeat step; cbn; rewrite ?trace_buffered; cbn; rewrite <- ?app_assoc; cbn;
    (eexists; split; [reflexivity|]);
    (split;
     [ intros Hn; rewrite Hn in *; cbn in *; try discriminate;
       intros Hin; cbn in Hin; intuition discriminate
     | intros Hn; rewrite Hn in *; cbn in *; try discriminate;
       intros Hok; try discriminate; cbn; tauto ]).
Qed.

(** X4: the loop body writes to the report and to the history file of its
    recording and to no other file; without [savehistory], to the report
    alone. *)
Theorem other_files_are_untouched :
  forall (load_func : loader) (measurements : list string) (fname path : string)
         (w : world),
    path <> output ->
    (savehistory = true -> path <> history_name (relpath fname)) ->
    disk (fst (process_file load_func measurements fname w)) !! path = disk w !! path.
Proof.
  clear file_template.
  intros lf ms f path w Hout Hhist. run.
  repeat step; cbn; rewrite ?disk_buffered by exact Hout; cbn;
    rewrite ?lookup_insert_ne by (apply not_eq_sym; auto); reflexivity.
Qed.

Lemma process_file_keeps_history (load_func : loader) (measurements : list string)
    (fname path : string) (w : world) :
  path <> output ->
  is_Some (disk w !! path) ->
  is_Some (disk (fst (process_file load_func measurements fname w)) !! path).
Proof.
  clear file_template.
  intros Hout Hsome. run.
  repeat step; cbn; rewrite ?disk_buffered by exact Hout; cbn;
    try exact Hsome;
    (destruct (decide (history_name (relpath fname) = path)) as [He|He];
     [ rewrite He, lookup_insert_eq; eauto
     | rewrite lookup_insert_ne by exact He; exact Hsome ]).
Qed.

Lemma resumed_file_recomputes_nothing (load_func : loader) (measurements : list string)
    (fname : string) (w : world) :
  is_Some (disk w !! history_name (relpath fname)) ->
  exists evs,
    trace (fst (process_file load_func measurements fname w)) = (trace w ++ evs)%list /\
    forall e, In e evs -> recomputes e = false.
Proof.
  clear file_template.
  intros [text Hd]. run. rewrite Hd. rewrite bool_decide_true by eauto. cbn.
  repeat step; cbn; rewrite ?trace_buffered; cbn; rewrite <- ?app_assoc; cbn;
    (eexists; split; [reflexivity|]);
    intros ev Hev; cbn in Hev; intuition (subst; reflexivity).
Qed.

(** X22: resumption.  A file that was processed to the end with
    [savehistory] set is, when it is processed again in the world that was
    left, whatever other files were processed in between, taken from its
    history: the loader, the filter and the detector are not called for it
    again. *)
Theorem second_pass_resumes_from_history :
  forall (load_func : loader) (measurements : list string) (fname : string)
         (between : list string) (w w1 w2 : world),
    savehistory = true ->
    history_name (relpath fname) <> output ->
    process_file load_func measurements fname w = (w1, Ok tt) ->
    fst (for_each between (process_file load_func measurements) w1) = w2 ->
    exists evs,
      trace (fst (process_file load_func measurements fname w2)) = (trace w2 ++ evs)%list /\
      forall e, In e evs -> recomputes e = false.
Proof.
  intros lf ms f between w w1 w2 Hs Hname Hfirst Hbetween.
  apply resumed_file_recomputes_nothing. subst w2.
  assert (H1 : is_Some (disk w1 !! history_name (relpath f))).
  { revert Hfirst. clear file_template. run. rewrite Hs.
    repeat step; intros H; inversion H; subst; clear H;
      rewrite disk_buffered by exact Hname; cbn; rewrite lookup_insert_is_Some; auto. }
  clear Hfirst. revert w1 H1. induction between as [|g between IH]; intros w1 H1; [exact H1|].
  cbn [for_each]. unfold bind.
  pose proof (process_file_keeps_history lf ms g _ w1 Hname H1) as Hg.
  destruct (process_file lf ms g w1) as [w' [e|[]]]; cbn in *; [exact Hg|].
  by apply IH.
Qed.

(** *** Further properties of the workflow *)

Lemma check_header_fresh (measurements : list string) (w : world) :
  disk w !! output = None ->
  check_header measurements w = (w, Ok (measurements, header measurements ++ Str.newline)).
Proof.
  intros Hd. unfold check_header, exists_, bind, gets, ret. cbn.
  rewrite Hd. rewrite bool_decide_false by (intros [? ?]; discriminate). reflexivity.
Qed.

Lemma written_opened_fresh (head : string) (w : world) :
  disk w !! output = None -> pending w = "" ->
  written output (opened head w) = head.
Proof.
  intros Hd Hp. unfold opened. rewrite written_buffered.
  unfold open_append, modify, written. cbn. rewrite Hd. cbn.
  rewrite lookup_insert_eq, Hp. reflexivity.
Qed.

(** X5: the report does not exist and every file is processed to the end.
    Then the report holds the header line of the requested measurements
    and, behind it, one row for each file that the template matched, in
    the order of the match. *)
Theorem fresh_report_contents :
  forall (requested measurements : list string) (load_func : loader) (w w' : world),
    map_result (dict_get ATTR_CONV) requested = Ok measurements ->
    dict_get LOADERS source = Ok load_func ->
    disk w !! output = None ->
    pending w = "" ->
    apart (glob (disk w) file_template) ->
    workflow (Some requested) w = (w', Ok tt) ->
    exists rows,
      Forall2 (row_of measurements) (glob (disk w) file_template) rows /\
      disk w' !! output =
        Some (header measurements ++ Str.newline ++ String.concat "" rows).
Proof.
  intros requested ms lf w w' Hm Hl Hd Hp Hap H.
  rewrite (workflow_unfold _ _ _ _ Hm Hl) in H. unfold bind at 1 in H.
  rewrite check_header_fresh in H by exact Hd.
  rewrite write_report_unfold in H.
  destruct (for_each _ _ _) as [w1 r] eqn:Hloop. inversion H; subst; clear H.
  destruct (loop_written _ _ _ _ _ Hloop Hap) as (rows & Hrows & Hw).
  exists rows. split; [exact Hrows|].
  rewrite (proj2 (written_flushed w1)), Hw.
  rewrite written_opened_fresh by (cbn; auto). by rewrite string_app_assoc.
Qed.


(** X7: the requested names are keys of [ATTR_CONV] and the source is a
    key of [LOADERS]; the report exists and is empty.  [readlines()[0]]
    raises [IndexError] after the three lines are printed: the report is
    not opened for writing and no file is processed. *)
Theorem empty_report_raises_index_error :
  forall (requested measurements : list string) (load_func : loader) (w : world),
    map_result (dict_get ATTR_CONV) requested = Ok measurements ->
    dict_get LOADERS source = Ok load_func ->
    disk w !! output = Some "" ->
    workflow (Some requested) w =
      (announced requested w, Err (IndexError "list index out of range")).
Proof.
  intros requested ms lf w Hm Hl Hd.
  rewrite (workflow_unfold _ _ _ _ Hm Hl). unfold bind at 1.
  unfold check_header, exists_, read_lines, bind, gets, lift. cbn.
  rewrite Hd. rewrite bool_decide_true by eauto. cbn. rewrite Hd. reflexivity.
Qed.

Lemma unknown_key_raises (requested : list string) (name : string) :
  In name requested -> assoc ATTR_CONV name = None ->
  exists unknown,
    In unknown requested /\ assoc ATTR_CONV unknown = None /\
    map_result (dict_get ATTR_CONV) requested = Err (KeyError unknown).
Proof.
  induction requested as [|k ks IH]; intros Hin Hnone; [destruct Hin|].
  cbn [map_result]. unfold dict_get at 1.
  destruct (assoc ATTR_CONV k) as [v|] eqn:Hk.
  - destruct Hin as [->|Hin]; [congruence|].
    destruct (IH Hin Hnone) as (u & Hu & Hun & ->).
    exists u. split; [by right|]. by split.
  - exists k. split; [by left|]. by split.
Qed.

(** X8: a requested name that is no key of [ATTR_CONV] (the short names
    of the report header are none) raises [KeyError] for the first such
    name, before the report is created and before any file is
    processed. *)
Theorem unknown_measurement_raises_key_error :
  forall (requested : list string) (name : string) (w : world),
    In name requested ->
    assoc ATTR_CONV name = None ->
    exists unknown,
      In unknown requested /\ assoc ATTR_CONV unknown = None /\
      workflow (Some requested) w = (announced requested w, Err (KeyError unknown)).
Proof.
  intros requested name w Hin Hnone.
  destruct (unknown_key_raises _ _ Hin Hnone) as (u & Hu & Hun & Hmap).
  exists u. split; [exact Hu|]. split; [exact Hun|].
  unfold workflow, print, emit, bind, modify, gets, lift, ret. cbn.
  rewrite Hmap. unfold announced. by rewrite <- !app_assoc.
Qed.

(** X9: a [source] other than ["rtpeaks"] and ["MRI"] raises [KeyError]
    before the report is created and before any file is processed. *)
Theorem unknown_source_raises_key_error :
  forall (requested measurements : list string) (w : world),
    map_result (dict_get ATTR_CONV) requested = Ok measurements ->
    source <> "rtpeaks" -> source <> "MRI" ->
    workflow (Some requested) w = (announced requested w, Err (KeyError source)).
Proof.
  intros requested ms w Hm H1 H2.
  unfold workflow, print, emit, bind, modify, gets, lift, ret. cbn.
  rewrite Hm. unfold dict_get, LOADERS. cbn [assoc].
  rewrite (proj2 (String.eqb_neq _ _)) by (apply not_eq_sym; exact H1).
  rewrite (proj2 (String.eqb_neq _ _)) by (apply not_eq_sym; exact H2).
  unfold announced. by rewrite <- !app_assoc.
Qed.

(** X10: a [modality] that is no key of [MODALITIES] is noticed late: for
    a file without history the loader has run when [KeyError] is raised,
    and neither the filter nor the detector is called. *)
Theorem unknown_modality_is_noticed_after_loading :
  forall (load_func : loader) (measurements : list string) (fname : string)
         (data : Physio) (w : world),
    assoc MODALITIES modality = None ->
    disk w !! history_name (relpath fname) = None ->
    load_func (disk w) (relpath fname) fs
      (if String.eqb source "rtpeaks" then Some channel else None) = Ok data ->
    process_file load_func measurements fname w =
      (World (disk w) (pending w)
         (trace w ++ [EvPrint ("Currently processing " ++ relpath fname);
                      EvLoad (relpath fname)]),
       Err (KeyError modality)).
Proof.
  intros lf ms f data w Hmod Hd Hload. run. rewrite Hd.
  rewrite bool_decide_false by (intros [? ?]; discriminate). cbn.
  unfold dict_get. rewrite Hmod.
  destruct (String.eqb source "rtpeaks"); cbn; rewrite Hload; cbn;
    by rewrite <- app_assoc.
Qed.

Lemma check_header_equal (measurements : list string) (text : string)
    (rest : list string) (w : world) :
  disk w !! output = Some text ->
  Str.file_lines text = header measurements :: rest ->
  check_header measurements w = (w, Ok (measurements, "")).
Proof.
  intros Hd Hl. unfold check_header, exists_, read_lines, bind, gets, lift, ret, emit, modify.
  cbn. rewrite Hd. rewrite bool_decide_true by eauto. cbn. rewrite Hd, Hl. cbn.
  rewrite bool_decide_false by (intros Hn; by apply Hn). reflexivity.
Qed.

(** X15: the report holds the requested header and nothing else, not even
    a line end.  The comparison succeeds, so the workflow does not warn;
    it writes no header and no line end, and the row of the first file is
    appended to the header line itself. *)
Theorem rows_follow_an_unterminated_header :
  forall (requested measurements : list string) (load_func : loader) (w w' : world),
    map_result (dict_get ATTR_CONV) requested = Ok measurements ->
    dict_get LOADERS source = Ok load_func ->
    disk w !! output = Some (header measurements) ->
    pending w = "" ->
    apart (glob (disk w) file_template) ->
    workflow (Some requested) w = (w', Ok tt) ->
    workflow (Some requested) w =
      write_report load_func measurements "" (glob (disk w) file_template)
        (announced requested w) /\
    exists rows,
      Forall2 (row_of measurements) (glob (disk w) file_template) rows /\
      disk w' !! output = Some (header measurements ++ String.concat "" rows).
Proof.
  intros requested ms lf w w' Hm Hl Hd Hp Hap H.
  assert (Hlines : Str.file_lines (header ms) = [header ms]).
  { apply file_lines_one_line; [done| |]; unfold header.
    - rewrite one_line_app.
      rewrite join_one_line by exact (requested_plain _ _ Hm). reflexivity.
    - rewrite unix_text_app.
      rewrite join_unix_text by exact (requested_plain _ _ Hm). reflexivity. }
  assert (Hrun : workflow (Some requested) w =
                 write_report lf ms "" (glob (disk w) file_template) (announced requested w)).
  { rewrite (workflow_unfold _ _ _ _ Hm Hl). unfold bind at 1.
    by rewrite (check_header_equal ms (header ms) []). }
  split; [exact Hrun|].
  rewrite Hrun, write_report_unfold in H.
  destruct (for_each _ _ _) as [w1 r] eqn:Hloop. inversion H; subst; clear H.
  destruct (loop_written _ _ _ _ _ Hloop Hap) as (rows & Hrows & Hw).
  exists rows. split; [exact Hrows|].
  rewrite (proj2 (written_flushed w1)), Hw.
  by rewrite (empty_header_keeps_file (header ms)).
Qed.

End Args.

End Workflow.

End Run.

(** ** workflow.py *)

Module Workflow.

Inductive col_index : Type :=
  | IdxTuple (chtime : Z) (chtrig : option Z)
  | IdxList (positions : list Z)
  | IdxScalar (position : Z).

Inductive event : Type :=
  | EvInfo (msg : string)
  | EvWarning (msg : string)
  | EvFindChtrig
  | EvGetLoc (label : string)
  | EvColumns (index : col_index)
  | EvDrop (labels : list string)
  | EvPhysio (col : string)
  | EvProcess (col : string)
  | EvManualPeaks (path : string)
  | EvSavePhysio (path : string)
  | EvSaveHistory (path : string).

Record world : Type := World {
  disk : gmap string string;
  trace : list event
}.

(** [phys_idx]: one position or a list of positions. *)
Inductive phys_index : Type :=
  | PhysInt (position : Z)
  | PhysList (positions : list Z).

(** [info["SamplingFrequency"]]: a list or one number. *)
Inductive sampling : Type :=
  | FreqList (fs : list spec_float)
  | FreqOne (fs : spec_float).

(** The sidecar object; a key that the file lacks is [None] here. *)
Record sidecar : Type := Sidecar {
  Columns : option (list string);
  SamplingFrequency : option sampling
}.

Definition no_trigger_msg : string :=
  "No trigger channel specified nor found, the workflow will be run on all columns of the dataframe".

Definition none_plus_str : exn :=
  TypeError "unsupported operand type(s) for +: 'NoneType' and 'str'".

(** [for idx, x in enumerate(xs)] *)
Fixpoint enumerate_from {A} (start : nat) (xs : list A) : list (nat * A) :=
  match xs with
  | [] => []
  | x :: rest => (start, x) :: enumerate_from (S start) rest
  end.

Definition enumerate {A} (xs : list A) : list (nat * A) := enumerate_from 0 xs.

(** The calls that write the result of a column. *)
Definition saves (e : event) : bool :=
  match e with
  | EvManualPeaks _ | EvSavePhysio _ | EvSaveHistory _ => true
  | _ => false
  end.

Section Peakdet.

(** The types and functions of pandas and of the library. *)
Variables Series Physio Steps : Type.
Variable version : string.
Variable sidecar_path : string -> string -> string.
Variable load_config : string -> result (gmap string Steps).
Variable load_sidecar : string -> result sidecar.
Variable read_csv :
  gmap string string -> string -> list string -> result (list (string * Series)).
Variable index_columns : list string -> col_index -> result (list string).
Variable find_chtrig : list (string * Series) -> result (option Z).
Variable make_physio : Series -> spec_float -> result Physio.
Variable process_signals : Physio -> Steps -> result Physio.
Variable manual_peaks : Physio -> string -> result unit.
Variable save_physio save_history : string -> Physio -> result unit.

(** A data frame is the list of its labelled columns.  The labels are
    taken to be distinct: for a label that is repeated, [data[col]] is a
    frame in pandas, which [getitem] below does not give. *)
Definition DataFrame : Type := list (string * Series).

Definition columns (data : DataFrame) : list string := map fst data.

Definition emit (e : event) : M world unit :=
  modify (fun w => World (disk w) (trace w ++ [e])).

(** Reading a local variable that an assignment may not have bound. *)
Definition read_local {A} (name : string) (v : option A) : M world A :=
  match v with
  | Some a => ret a
  | None => raise (UnboundLocalError name)
  end.

Fixpoint position (label : string) (labels : list string) : option nat :=
  match labels with
  | [] => None
  | l :: rest =>
      if String.eqb l label then Some 0%nat
      else option_map S (position label rest)
  end.

(** [data.columns.get_loc(label)] *)
Definition get_loc (data : DataFrame) (label : string) : M world Z :=
  let* _ := emit (EvGetLoc label) in
  match position label (columns data) with
  | Some i => ret (Z.of_nat i)
  | None => raise (KeyError label)
  end.

(** [data.columns[index]] *)
Definition columns_at (data : DataFrame) (index : col_index) : M world (list string) :=
  let* _ := emit (EvColumns index) in lift (index_columns (columns data) index).

(** [data.drop(labels, axis=1, inplace=True)] *)
Definition drop (data : DataFrame) (labels : list string) : M world DataFrame :=
  let* _ := emit (EvDrop labels) in
  match find (fun l => negb (bool_decide (elem_of l (columns data)))) labels with
  | Some l => raise (KeyError l)
  | None => ret (filter (fun c => ~ elem_of (fst c) labels) data)
  end.

(** One position of [iloc]: negative positions count from the end. *)
Definition iloc_column (data : DataFrame) (i : Z) : result (string * Series) :=
  let n := Z.of_nat (length data) in
  let j := if (i <? 0)%Z then (n + i)%Z else i in
  if ((0 <=? j) && (j <? n))%Z then
    match data !! Z.to_nat j with
    | Some c => Ok c
    | None => Err (IndexError "single positional indexer is out-of-bounds")
    end
  else Err (IndexError "single positional indexer is out-of-bounds").

(** [pd.DataFrame(data.iloc[:, phys_idx])] *)
Definition iloc (data : DataFrame) (phys_idx : phys_index) : result DataFrame :=
  match phys_idx with
  | PhysInt i =>
      match iloc_column data i with
      | inr c => Ok [c]
      | inl e => Err e
      end
  | PhysList l => map_result (iloc_column data) l
  end.

(** Lines 163 to 181. *)
Definition select_columns (phys_idx : option phys_index) (chtrig : option Z)
    (data : DataFrame) : M world DataFrame :=
  match phys_idx with
  | Some idx => lift (iloc data idx)
  | None =>
      if negb (bool_decide (chtrig = Some 0%Z)) then
        let* chtime := get_loc data "time" in
        let* labels := columns_at data (IdxTuple chtime chtrig) in
        drop data labels
      else
        (* no assignment to [chtime] is on this path *)
        let chtime : option Z := None in
        let* _ := emit (EvInfo "Running automatic trigger detection.") in
        let* _ := emit EvFindChtrig in
        let* chtrig := lift (find_chtrig data) in
        match chtrig with
        | Some trig =>
            let* time := read_local "chtime" chtime in
            let* labels := columns_at data (IdxList [time; trig]) in
            drop data labels
        | None =>
            let* _ := emit (EvWarning no_trigger_msg) in
            let* time := read_local "chtime" chtime in
            let* labels := columns_at data (IdxScalar time) in
            drop data labels
        end
  end.

(** [outfile + suffix]: [outfile] may be [None]. *)
Definition add_suffix (outfile : option string) (suffix : string) : result string :=
  match outfile with
  | Some name => Ok (name ++ suffix)
  | None => Err none_plus_str
  end.

Definition sampling_frequency (info : sidecar) (idx : nat) : result spec_float :=
  match SamplingFrequency info with
  | None => Err (KeyError "SamplingFrequency")
  | Some (FreqList l) =>
      match l !! idx with
      | Some fs => Ok fs
      | None => Err (IndexError "list index out of range")
      end
  | Some (FreqOne fs) => Ok fs
  end.

Definition getitem (data : DataFrame) (col : string) : result Series :=
  match assoc data col with
  | Some s => Ok s
  | None => Err (KeyError col)
  end.

Section Args.

Variables (config : gmap string Steps) (info : sidecar).
Variables (outfile : option string) (outdir : string) (manual_detector : bool).

(** The body of [for idx, col in enumerate(data.columns)]. *)
Definition process_column (data : DataFrame) (item : nat * string) : M world unit :=
  let '(idx, col) := item in
  let* fs := lift (sampling_frequency info idx) in
  let* series := lift (getitem data col) in
  let* _ := emit (EvPhysio col) in
  let* physio_obj := lift (make_physio series fs) in
  let* steps := lift (match config !! col with
                      | Some steps => Ok steps
                      | None => Err (KeyError col)
                      end) in
  let* _ := emit (EvProcess col) in
  let* physio_obj := lift (process_signals physio_obj steps) in
  if manual_detector then
    let* name := lift (add_suffix outfile ("_" ++ col ++ ".phys")) in
    let path := Path.join outdir name in
    let* _ := emit (EvManualPeaks path) in
    lift (manual_peaks physio_obj path)
  else
    let* name := lift (add_suffix outfile ("_" ++ col)) in
    let path := Path.join outdir name in
    let* _ := emit (EvSavePhysio path) in
    let* _ := lift (save_physio path physio_obj) in
    let* name := lift (add_suffix outfile ("_history_" ++ col)) in
    let path := Path.join outdir name in
    let* _ := emit (EvSaveHistory path) in
    lift (save_history path physio_obj).

Definition process_columns (data : DataFrame) : M world unit :=
  for_each (enumerate (columns data)) (process_column data).

End Args.

(** [peakdet], from the loading of the configuration on; [outdir] is the
    folder that the set-up above it has prepared. *)
Definition peakdet (filename config_path indir : string) (outfile : option string)
    (outdir : string) (phys_idx : option phys_index) (chtrig : option Z)
    (manual_detector : bool) : M world unit :=
  let* _ := emit (EvInfo ("Currently running peakdet version " ++ version)) in
  let* config :=
    (fun w => match disk w !! config_path with
              | Some text => (w, load_config text)
              | None => (w, Err (FileNotFoundError config_path))
              end) in
  let* info :=
    (fun w => match disk w !! sidecar_path indir filename with
              | Some text => (w, load_sidecar text)
              | None => (w, Err (FileNotFoundError (sidecar_path indir filename)))
              end) in
  let* names := lift (match Columns info with
                      | Some names => Ok names
                      | None => Err (KeyError "Columns")
                      end) in
  let* data := (fun w => (w, read_csv (disk w) (Path.truediv indir filename) names)) in
  let* data := select_columns phys_idx chtrig data in
  let* _ := process_columns config info outfile outdir manual_detector data in
  emit (EvInfo ("peakdet finished! Check results in " ++ outdir ++ ".")).

(** *** What a computation adds to the trace *)

Definition adds (P : event -> Prop) {A} (m : M world A) : Prop :=
  forall w, exists evs,
    trace (fst (m w)) = (trace w ++ evs)%list /\ Forall P evs.

Lemma adds_still (P : event -> Prop) {A} (m : M world A) :
  (forall w, fst (m w) = w) -> adds P m.
Proof. intros H w. exists []. rewrite H, app_nil_r. by split. Qed.

Lemma adds_lift (P : event -> Prop) {A} (r : result A) : adds P (lift r).
Proof. by apply adds_still. Qed.

Lemma adds_emit (P : event -> Prop) (e : event) : P e -> adds P (emit e).
Proof. intros H w. exists [e]. split; [reflexivity|]. by repeat constructor. Qed.

Lemma adds_bind (P : event -> Prop) {A B} (m : M world A) (k : A -> M world B) :
  adds P m -> (forall a, adds P (k a)) -> adds P (bind m k).
Proof.
  intros Hm Hk w. unfold bind. destruct (Hm w) as (evs & Ht & Hp).
  destruct (m w) as [w1 [e|a]]; cbn in *.
  - by exists evs.
  - destruct (Hk a w1) as (evs' & Ht' & Hp'). exists (evs ++ evs')%list.
    rewrite Ht', Ht, <- app_assoc. split; [reflexivity|]. by apply Forall_app.
Qed.

Lemma adds_for_each (P : event -> Prop) {A} (xs : list A) (body : A -> M world unit) :
  (forall x, adds P (body x)) -> adds P (for_each xs body).
Proof.
  intros H. induction xs as [|x xs IH]; cbn.
  - by apply adds_still.
  - by apply adds_bind.
Qed.

Lemma adds_read_local (P : event -> Prop) {A} (name : string) (v : option A) :
  adds P (read_local name v).
Proof. destruct v; by apply adds_still. Qed.

Ltac adds_tac :=
  repeat first
    [ apply adds_lift
    | apply adds_read_local
    | apply adds_emit; reflexivity
    | apply adds_bind; [|intros ?]
    | apply adds_still; intros ?; reflexivity
    | match goal with
      | |- adds _ (match ?x with _ => _ end) => destruct x
      | |- adds _ (if ?x then _ else _) => destruct x
      end ].

Lemma select_columns_adds (phys_idx : option phys_index) (chtrig : option Z)
    (data : DataFrame) :
  adds (fun e => saves e = false) (select_columns phys_idx chtrig data).
Proof.
  unfold select_columns, get_loc, columns_at, drop. adds_tac.
Qed.

Lemma process_column_adds (config : gmap string Steps) (info : sidecar)
    (outdir : string) (manual_detector : bool) (data : DataFrame)
    (item : nat * string) :
  adds (fun e => saves e = false)
    (process_column config info None outdir manual_detector data item).
Proof.
  unfold process_column. destruct item as [idx col]. cbn [add_suffix]. adds_tac.
Qed.

Lemma enumerate_from_app {A} (start : nat) (xs ys : list A) :
  enumerate_from start (xs ++ ys) =
  (enumerate_from start xs ++ enumerate_from (start + length xs) ys)%list.
Proof.
  revert start. induction xs as [|x xs IH]; intros start; cbn.
  - by rewrite Nat.add_0_r.
  - rewrite IH. do 3 f_equal. lia.
Qed.

(** C7: with [phys_idx] [None] and [chtrig] 0 the search runs, and
    whatever it returns the next statement reads [chtime], which no
    assignment has bound on this path: the selection ends in that name
    error, and no column has been dropped. *)
Theorem automatic_search_reads_unbound_chtime :
  forall (data : DataFrame) (found : option Z) (w : world),
    find_chtrig data = Ok found ->
    select_columns None (Some 0%Z) data w =
      (World (disk w)
         (trace w ++
          [EvInfo "Running automatic trigger detection."; EvFindChtrig] ++
          match found with
          | Some _ => []
          | None => [EvWarning no_trigger_msg]
          end),
       Err (UnboundLocalError "chtime")).
Proof.
  intros data found w Hf.
  unfold select_columns, emit, bind, modify, lift, read_local, raise.
  rewrite bool_decide_true by reflexivity. cbn.
  rewrite Hf. destruct found; cbn; rewrite <- ?app_assoc; reflexivity.
Qed.

(** C9, as the code has it: the search for the trigger channel runs
    exactly when [phys_idx] is [None] and [chtrig] is 0; with [phys_idx]
    given, the trigger is not handled at all.  With [phys_idx] and
    [chtrig] both [None] the code looks up the time column and indexes
    the columns with the pair of that position and [None]. *)
Theorem search_runs_only_for_zero :
  forall (phys_idx : option phys_index) (chtrig : option Z) (data : DataFrame)
         (w : world),
    exists evs,
      trace (fst (select_columns phys_idx chtrig data w)) = (trace w ++ evs)%list /\
      (In EvFindChtrig evs <-> phys_idx = None /\ chtrig = Some 0%Z) /\
      (phys_idx <> None -> evs = []) /\
      (phys_idx = None -> chtrig = None ->
         In (EvGetLoc "time") evs /\
         forall i, position "time" (columns data) = Some i ->
                   In (EvColumns (IdxTuple (Z.of_nat i) None)) evs).
Proof.
  clear - index_columns find_chtrig.
  intros phys_idx chtrig data w.
  destruct phys_idx as [idx|].
  { exists []. unfold select_columns, lift. cbn. rewrite app_nil_r.
    split; [reflexivity|]. split; [|split; [reflexivity|discriminate]].
    split; [intros []|intros [? _]; discriminate]. }
  assert (H : exists evs,
      trace (fst (select_columns None chtrig data w)) = (trace w ++ evs)%list /\
      (In EvFindChtrig evs <-> chtrig = Some 0%Z) /\
      (chtrig = None ->
         In (EvGetLoc "time") evs /\
         forall i, position "time" (columns data) = Some i ->
                   In (EvColumns (IdxTuple (Z.of_nat i) None)) evs));
    [|destruct H as (evs & Ht & Hiff & Hnone); exists evs;
      split; [exact Ht|]; split;
      [split; [intros Hin; split; [reflexivity|by apply Hiff]
              |intros [_ Hz]; by apply Hiff]
      |split; [intros Hn; by destruct Hn|intros _; exact Hnone]]].
  unfold select_columns, get_loc, columns_at, drop, emit, bind, modify, lift,
    read_local, raise, ret.
  destruct (decide (chtrig = Some 0%Z)) as [->|Hne].
  - rewrite bool_decide_true by reflexivity. cbn.
    destruct (find_chtrig data) as [e|[trig|]]; cbn; rewrite <- ?app_assoc;
      (eexists; split; [reflexivity|]); (split; [cbn; tauto|discriminate]).
  - rewrite bool_decide_false by exact Hne. cbn.
    destruct (position "time" (columns data)) as [i|] eqn:Hpos; cbn.
    + destruct (index_columns (columns data) (IdxTuple (Z.of_nat i) chtrig))
        as [e|labels] eqn:Hidx; cbn.
      * rewrite <- ?app_assoc. eexists; split; [reflexivity|]. split.
        -- split; [cbn; intros [?|[?|[]]]; discriminate|intros ?; contradiction].
        -- intros ->. split; [cbn; tauto|]. intros j Hj. inversion Hj; subst. cbn; tauto.
      * destruct (find _ labels); cbn; rewrite <- ?app_assoc;
          (eexists; split; [reflexivity|]); (split;
            [split; [cbn; intros [?|[?|[?|[]]]]; discriminate|intros ?; contradiction]
            |intros ->; split; [cbn; tauto|]; intros j Hj; inversion Hj; subst; cbn; tauto]).
    + eexists; split; [reflexivity|]. split.
      * split; [cbn; intros [?|[]]; discriminate|intros ?; contradiction].
      * intros ->. split; [cbn; tauto|]. intros j Hj. discriminate.
Qed.

Lemma peakdet_adds (filename config_path indir outdir : string)
    (phys_idx : option phys_index) (chtrig : option Z) (manual_detector : bool) :
  adds (fun e => saves e = false)
    (peakdet filename config_path indir None outdir phys_idx chtrig manual_detector).
Proof.
  unfold peakdet, process_columns.
  repeat first
    [ apply select_columns_adds
    | apply adds_for_each; intros ?; apply process_column_adds
    | apply adds_emit; reflexivity
    | apply adds_lift
    | apply adds_bind; [|intros ?]
    | apply adds_still; intros w; cbn;
      first [reflexivity | by destruct (disk w !! _)] ].
Qed.

Lemma process_column_without_outfile (config : gmap string Steps) (info : sidecar)
    (outdir : string) (manual_detector : bool) (data : DataFrame)
    (idx : nat) (col : string) (fs : spec_float) (series : Series)
    (physio_obj processed : Physio) (steps : Steps) (w : world) :
  sampling_frequency info idx = Ok fs ->
  getitem data col = Ok series ->
  make_physio series fs = Ok physio_obj ->
  config !! col = Some steps ->
  process_signals physio_obj steps = Ok processed ->
  process_column config info None outdir manual_detector data (idx, col) w =
    (World (disk w) (trace w ++ [EvPhysio col; EvProcess col]), Err none_plus_str).
Proof.
  intros Hfs Hs Hp Hc Hpr.
  unfold process_column, emit, bind, modify, lift. cbn.
  rewrite Hfs, Hs. cbn. rewrite Hp, Hc. cbn. rewrite Hpr.
  destruct manual_detector; cbn; by rewrite <- app_assoc.
Qed.

(** C10: with [outfile] left at [None], a run of [peakdet] never calls
    [manual_peaks], [save_physio] or [save_history]; and once the first
    column has been made a record and processed, the loop ends in the
    type error of [None + str], whatever [manual_detector] is. *)
Theorem default_outfile_never_saves :
  forall (config : gmap string Steps) (info : sidecar)
         (filename config_path indir outdir : string)
         (phys_idx : option phys_index) (chtrig : option Z)
         (manual_detector : bool) (data : DataFrame)
         (col : string) (others : list string) (fs : spec_float) (series : Series)
         (physio_obj processed : Physio) (steps : Steps) (w : world),
    columns data = col :: others ->
    sampling_frequency info 0 = Ok fs ->
    getitem data col = Ok series ->
    make_physio series fs = Ok physio_obj ->
    config !! col = Some steps ->
    process_signals physio_obj steps = Ok processed ->
    snd (process_columns config info None outdir manual_detector data w) =
      Err none_plus_str /\
    exists evs,
      trace (fst (peakdet filename config_path indir None outdir phys_idx chtrig
                    manual_detector w)) = (trace w ++ evs)%list /\
      forall e, In e evs -> saves e = false.
Proof.
  intros config info filename config_path indir outdir phys_idx chtrig manual data
    col others fs series p p' steps w Hcols Hfs Hs Hp Hc Hpr.
  split.
  - unfold process_columns, enumerate. rewrite Hcols.
    cbn [for_each enumerate_from]. unfold bind.
    by rewrite (process_column_without_outfile _ _ _ _ _ _ _ fs series p p' steps).
  - destruct (peakdet_adds filename config_path indir outdir phys_idx chtrig manual w)
      as (evs & Ht & Hall).
    exists evs. split; [exact Ht|]. intros e He.
    rewrite Forall_forall in Hall. apply Hall. by apply list_elem_of_In.
Qed.

(** A column without an entry in the configuration raises [KeyError]
    when the loop reaches it, after the columns before it. *)
Lemma missing_entry_raises_in_the_loop (config : gmap string Steps) (info : sidecar)
    (outfile : option string) (outdir : string) (manual_detector : bool)
    (data : DataFrame) (done : list string) (col : string) (others : list string)
    (fs : spec_float) (series : Series) (physio_obj : Physio) (w w1 : world) :
  columns data = (done ++ col :: others)%list ->
  for_each (enumerate done)
    (process_column config info outfile outdir manual_detector data) w = (w1, Ok tt) ->
  sampling_frequency info (length done) = Ok fs ->
  getitem data col = Ok series ->
  make_physio series fs = Ok physio_obj ->
  config !! col = None ->
  process_columns config info outfile outdir manual_detector data w =
    (World (disk w1) (trace w1 ++ [EvPhysio col]), Err (KeyError col)).
Proof.
  intros Hcols Hdone Hfs Hs Hp Hc.
  unfold process_columns, enumerate. rewrite Hcols, enumerate_from_app.
  rewrite (for_each_app _ _ _ _ _ Hdone). rewrite Nat.add_0_l.
  cbn [for_each enumerate_from]. unfold bind at 1.
  unfold process_column, emit, bind, modify, lift. cbn.
  rewrite Hfs, Hs. cbn. by rewrite Hp, Hc.
Qed.

(** *** Further properties of [peakdet] *)

Lemma position_absent (label : string) (labels : list string) :
  ~ In label labels -> position label labels = None.
Proof.
  induction labels as [|l labels IH]; intros H; [reflexivity|]. cbn.
  destruct (String.eqb l label) eqn:E.
  - apply String.eqb_eq in E. subst. destruct H. by left.
  - rewrite IH; [reflexivity|]. intros Hin. apply H. by right.
Qed.

(** X16: the trigger column is given, or left at [None], and the data have
    no column [time].  The selection raises [KeyError] for that label and
    drops nothing. *)
Theorem missing_time_column_raises :
  forall (chtrig : option Z) (data : DataFrame) (w : world),
    chtrig <> Some 0%Z ->
    ~ In "time" (columns data) ->
    select_columns None chtrig data w =
      (World (disk w) (trace w ++ [EvGetLoc "time"]), Err (KeyError "time")).
Proof.
  intros chtrig data w Hne Hno.
  unfold select_columns, get_loc, emit, bind, modify, raise.
  rewrite bool_decide_false by exact Hne. cbn.
  by rewrite (position_absent _ _ Hno).
Qed.

(** X17: the sidecar lists fewer sampling frequencies than there are
    columns to process.  The columns that have one are processed; the
    first one that has none raises [IndexError] before its record is
    built. *)
Theorem short_frequency_list_raises :
  forall (config : gmap string Steps) (info : sidecar) (outfile : option string)
         (outdir : string) (manual_detector : bool) (data : DataFrame)
         (done : list string) (col : string) (others : list string)
         (freqs : list spec_float) (w w1 : world),
    columns data = (done ++ col :: others)%list ->
    for_each (enumerate done)
      (process_column config info outfile outdir manual_detector data) w = (w1, Ok tt) ->
    SamplingFrequency info = Some (FreqList freqs) ->
    length freqs <= length done ->
    process_columns config info outfile outdir manual_detector data w =
      (w1, Err (IndexError "list index out of range")).
Proof.
  intros config info outfile outdir manual data done col others freqs w w1
    Hcols Hdone Hsf Hlen.
  unfold process_columns, enumerate. rewrite Hcols, enumerate_from_app.
  rewrite (for_each_app _ _ _ _ _ Hdone). rewrite Nat.add_0_l.
  cbn [for_each enumerate_from]. unfold bind at 1.
  unfold process_column, bind, lift, sampling_frequency. rewrite Hsf.
  by rewrite (lookup_ge_None_2 freqs (length done)) by lia.
Qed.

Lemma join_absolute (outdir name suffix : string) :
  Str.startswith_char Path.sep name = true ->
  Path.join outdir (name ++ suffix) = name ++ suffix.
Proof.
  intros H. unfold Path.join. destruct name as [|c name]; [discriminate|].
  change (String c name ++ suffix) with (String c (name ++ suffix)).
  cbn [Str.startswith_char] in *. by rewrite H.
Qed.

(** X18: when [outfile] is an absolute path, [outdir] has no part in the
    paths that the results of a column are written to: the loop body does
    the same for any two output folders. *)
Theorem absolute_outfile_ignores_outdir :
  forall (config : gmap string Steps) (info : sidecar) (name : string)
         (outdir outdir' : string) (manual_detector : bool) (data : DataFrame)
         (item : nat * string) (w : world),
    Str.startswith_char Path.sep name = true ->
    process_column config info (Some name) outdir manual_detector data item w =
    process_column config info (Some name) outdir' manual_detector data item w.
Proof.
  intros config info name outdir outdir' manual data [idx col] w H.
  unfold process_column, add_suffix, lift, bind. cbn.
  by rewrite !(join_absolute outdir), !(join_absolute outdir') by exact H.
Qed.

(** The calls of the attended and of the unattended way of saving. *)
Definition attended (e : event) : bool :=
  match e with EvManualPeaks _ => true | _ => false end.

Definition unattended (e : event) : bool :=
  match e with EvSavePhysio _ | EvSaveHistory _ => true | _ => false end.

(** X19: [manual_detector] chooses the way of saving for the whole loop:
    with it, [save_physio] and [save_history] are never called; without
    it, [manual_peaks] is never called. *)
Theorem manual_detector_chooses_the_writer :
  forall (config : gmap string Steps) (info : sidecar) (outfile : option string)
         (outdir : string) (manual_detector : bool) (data : DataFrame) (w : world),
    exists evs,
      trace (fst (process_columns config info outfile outdir manual_detector data w))
        = (trace w ++ evs)%list /\
      forall e, In e evs ->
        (if manual_detector then unattended e else attended e) = false.
Proof.
  intros config info outfile outdir manual data w.
  assert (H : adds (fun e => (if manual then unattended e else attended e) = false)
                (process_columns config info outfile outdir manual data)).
  { unfold process_columns. apply adds_for_each. intros [idx col].
    unfold process_column. destruct manual, outfile; cbn [add_suffix]; adds_tac. }
  destruct (H w) as (evs & Ht & Hall). exists evs. split; [exact Ht|].
  intros e He. rewrite Forall_forall in Hall. apply Hall. by apply list_elem_of_In.
Qed.

(** The calls that a column makes when nothing raises. *)
Definition column_events (name outdir : string) (manual_detector : bool) (col : string)
  : list event :=
  [EvPhysio col; EvProcess col] ++
  if manual_detector
  then [EvManualPeaks (Path.join outdir (name ++ "_" ++ col ++ ".phys"))]
  else [EvSavePhysio (Path.join outdir (name ++ "_" ++ col));
        EvSaveHistory (Path.join outdir (name ++ "_history_" ++ col))].

Lemma process_column_events (config : gmap string Steps) (info : sidecar)
    (name outdir : string) (manual_detector : bool) (data : DataFrame)
    (item : nat * string) (w w' : world) :
  process_column config info (Some name) outdir manual_detector data item w = (w', Ok tt) ->
  w' = World (disk w) (trace w ++ column_events name outdir manual_detector (snd item)).
Proof.
  destruct item as [idx col]. unfold process_column, column_events, emit, bind, modify, lift.
  cbn.
  destruct (sampling_frequency info idx); [discriminate|].
  destruct (getitem data col); [discriminate|]. cbn.
  destruct (make_physio _ _); [discriminate|].
  destruct (config !! col); [|discriminate]. cbn.
  destruct (process_signals _ _); [discriminate|].
  destruct manual_detector; cbn.
  - destruct (manual_peaks _ _) as [|[]]; [discriminate|].
    intros H; inversion H; subst. by rewrite <- !app_assoc.
  - destruct (save_physio _ _) as [|[]]; [discriminate|]. cbn.
    destruct (save_history _ _) as [|[]]; [discriminate|].
    intros H; inversion H; subst. by rewrite <- !app_assoc.
Qed.

Lemma loop_events (config : gmap string Steps) (info : sidecar)
    (name outdir : string) (manual_detector : bool) (data : DataFrame)
    (cols : list string) (start : nat) (w w' : world) :
  for_each (enumerate_from start cols)
    (process_column config info (Some name) outdir manual_detector data) w = (w', Ok tt) ->
  w' = World (disk w)
         (trace w ++ concat (map (column_events name outdir manual_detector) cols)).
Proof.
  revert start w. induction cols as [|col cols IH]; intros start w H.
  - inversion H; subst. cbn. rewrite app_nil_r. by destruct w'.
  - cbn [enumerate_from for_each] in H. unfold bind in H.
    destruct (process_column _ _ _ _ _ _ _ w) as [w1 [e|[]]] eqn:Hcol; [discriminate|].
    apply process_column_events in Hcol. apply IH in H. subst w1 w'.
    cbn [map concat snd disk trace]. by rewrite <- app_assoc.
Qed.

(** X12: a loop that ends normally has built and processed every column
    of the frame once, in the order of the frame, and has saved each one
    right after processing it: by [manual_peaks] under [outfile_col.phys],
    or by [save_physio] under [outfile_col] and then [save_history] under
    [outfile_history_col], joined to the output folder.  It has done
    nothing else. *)
Theorem successful_loop_saves_every_column :
  forall (config : gmap string Steps) (info : sidecar) (name outdir : string)
         (manual_detector : bool) (data : DataFrame) (w w' : world),
    process_columns config info (Some name) outdir manual_detector data w = (w', Ok tt) ->
    w' = World (disk w)
           (trace w ++
            concat (map (column_events name outdir manual_detector) (columns data))).
Proof.
  intros config info name outdir manual data w w' H.
  exact (loop_events config info name outdir manual data (columns data) 0%nat w w' H).
Qed.

(** The values that the parser of the command line gives [phys_idx] and
    [chtrig] when their options are left out. *)
Definition default_phys_idx : option phys_index := None.
Definition default_chtrig : option Z := Some 0%Z.

(** The events of the work on a column. *)
Definition column_work (e : event) : bool :=
  match e with
  | EvDrop _ | EvPhysio _ | EvProcess _
  | EvManualPeaks _ | EvSavePhysio _ | EvSaveHistory _ => true
  | _ => false
  end.

(** X20: with the defaults of the command line for [phys_idx] and
    [chtrig], [peakdet] never ends normally and never reaches a column:
    nothing is dropped, no record is built and nothing is saved. *)
Theorem default_options_never_reach_a_column :
  forall (filename config_path indir : string) (outfile : option string)
         (outdir : string) (manual_detector : bool) (w : world),
    (exists e, snd (peakdet filename config_path indir outfile outdir
                      default_phys_idx default_chtrig manual_detector w) = Err e) /\
    exists evs,
      trace (fst (peakdet filename config_path indir outfile outdir
                    default_phys_idx default_chtrig manual_detector w))
        = (trace w ++ evs)%list /\
      forall e, In e evs -> column_work e = false.
Proof.
  intros filename config_path indir outfile outdir manual w.
  unfold peakdet, default_phys_idx, default_chtrig, select_columns, emit, bind,
    modify, lift, read_local, raise.
  rewrite bool_decide_true by reflexivity. cbn.
  destruct (disk w !! config_path) as [ctext|]; cbn;
    [destruct (load_config ctext) as [e|config]; cbn|];
    [| destruct (disk w !! sidecar_path indir filename) as [stext|]; cbn;
       [destruct (load_sidecar stext) as [e|info]; cbn|] |];
    [| | destruct (Columns info) as [names|]; cbn;
         [destruct (read_csv (disk w) (Path.truediv indir filename) names) as [e|data]; cbn|]
     | |];
    [| | | destruct (find_chtrig data) as [e|[trig|]]; cbn | | |];
    rewrite <- ?app_assoc; cbn;
    (split; [eexists; reflexivity|]);
    (eexists; split; [reflexivity|]);
    intros ev Hev; cbn in Hev; intuition (subst; reflexivity).
Qed.

End Peakdet.

(** *** The output folder (lines 93 to 103) *)

Section Folders.

Variable commonpath : string -> result string.
Variable abspath : string -> string.

(** [os.path.split(p)[0]]: [posixpath.split] cuts the head as [dirname]
    does. *)
Definition split_head (p : string) : string := Path.dirname p.

(** The folder that [peakdet] writes to. *)
Definition prepare_outdir (filename : string) (outfile outdir : option string)
  : result string :=
  match outdir with
  | Some dir => Ok (abspath dir)
  | None =>
      match (match outfile with
             | None => commonpath filename
             | Some name => Ok (split_head name)
             end) with
      | inl e => Err e
      | inr dir =>
          let dir := if String.eqb dir "" || String.eqb dir "/" then "." else dir in
          Ok (abspath (Path.join dir "peakdet"))
      end
  end.

Lemma dirname_flat (name : string) : flat name = true -> Path.dirname name = "".
Proof.
  intros H. unfold Path.dirname, Path.cut. rewrite (rfind_flat _ H).
  by destruct name.
Qed.

Lemma dirname_root (name : string) :
  flat name = true -> Path.dirname ("/" ++ name) = "/".
Proof.
  intros H. unfold Path.dirname.
  change ("/" ++ name) with ("" ++ String Path.sep name).
  rewrite (cut_nested "" name H).
  change ("" ++ String Path.sep name) with (String Path.sep name).
  clear H. by destruct name.
Qed.

(** X21: without [outdir], the results go to a folder [peakdet] beside the
    output file.  For an output file that is a bare name, and also for one
    directly under the root, that is [./peakdet]; for one in a folder, the
    folder [peakdet] inside that folder. *)
Theorem outdir_is_taken_from_outfile :
  forall (filename name : string),
    flat name = true ->
    prepare_outdir filename (Some name) None = Ok (abspath "./peakdet") /\
    prepare_outdir filename (Some ("/" ++ name)) None = Ok (abspath "./peakdet") /\
    forall (folder : string),
      folder <> "" -> Str.endswith_char Path.sep folder = false ->
      prepare_outdir filename (Some (folder ++ "/" ++ name)) None =
        Ok (abspath (folder ++ "/peakdet")).
Proof.
  intros filename name H. unfold prepare_outdir, split_head. split; [|split].
  - by rewrite (dirname_flat _ H).
  - by rewrite (dirname_root _ H).
  - intros folder Hne Hend.
    change (folder ++ "/" ++ name) with (folder ++ String Path.sep name).
    rewrite (dirname_nested _ _ H Hne Hend).
    assert (Hslash : String.eqb folder "/" = false).
    { apply String.eqb_neq. intros ->. discriminate. }
    assert (Hempty : String.eqb folder "" = false) by (by apply String.eqb_neq).
    rewrite Hslash, Hempty. cbn [orb]. unfold Path.join.
    change (Str.startswith_char Path.sep "peakdet") with false. cbn match.
    rewrite Hempty, Hend. reflexivity.
Qed.

End Folders.

End Workflow.

(** ** A sample session of the report workflow

    Two recordings, a record that is the name of its source, and library
    functions that succeed wherever the recording has text. *)

Module Session.

Import Run.

Definition glob (disk : gmap string string) (template : string) : list string :=
  if String.eqb template "*.tsv" then ["a.tsv"; "b.tsv"] else [].

Definition relpath (p : string) : string := p.

Definition load (disk : gmap string string) (fname : string) (fs : spec_float)
    (channel : option Z) : result string :=
  match disk !! fname with
  | Some "" => Err (ValueError ("no samples in " ++ fname))
  | Some _ => Ok fname
  | None => Err (FileNotFoundError fname)
  end.

Definition load_history (disk : gmap string string) (path : string) : result string :=
  match disk !! path with
  | Some text => Ok text
  | None => Err (FileNotFoundError path)
  end.

Definition HRV (data : string) : result (gmap string pyval) :=
  Ok {[ "avgnn" := VFloat (S754_finite false 13 6);
        "rmssd" := VFloat (S754_finite false 1 (-3)) ]}.

(** The writer of [io.DEFAULT_BUFFER_SIZE] characters. *)
Definition spills (text : string) : bool :=
  (8192 <? N.of_nat (String.length text))%N.

Definition hz : spec_float := S754_finite false 1000 0.
Definition thresh : spec_float := S754_finite false 1 (-2).

Definition process_file (output : string) :=
  Run.process_file string relpath load_history
    (fun d _ _ => Ok d) (fun d _ => Ok d) (fun d => Ok d) (fun _ d => Ok d) HRV spills
    "ECG" hz "MRI" 1%Z output true true thresh load.

Definition write_report (output : string) :=
  Run.write_report string relpath load_history
    (fun d _ _ => Ok d) (fun d _ => Ok d) (fun d => Ok d) (fun _ d => Ok d) HRV spills
    "ECG" hz "MRI" 1%Z output true true thresh load.

Definition workflow (output : string) :=
  Run.workflow string glob relpath load load load_history
    (fun d _ _ => Ok d) (fun d _ => Ok d) (fun d => Ok d) (fun _ d => Ok d) HRV spills
    "*.tsv" "ECG" hz "MRI" 1%Z output true true thresh.

Definition recordings (a b : string) : gmap string string :=
  {[ "a.tsv" := a; "b.tsv" := b ]}.

Definition samples : string := "0.1" ++ Str.newline ++ "0.2" ++ Str.newline.

(** Two good recordings; a first, or a second, recording without
    samples; a history file for the first; a report left by a run. *)
Definition fresh : world := World (recordings samples samples) "" [].
Definition second_empty : world := World (recordings samples "") "" [].
Definition resumed : world :=
  World (<[".a.tsv.json" := "a.tsv"]> (recordings samples samples)) "" [].
Definition reported (report : string) : world :=
  World (<["out.csv" := report]> (recordings samples samples)) "" [].

End Session.

Example session_report :
  (fst (Session.workflow "out.csv" (Some ["Average NN intervals"; "Root mean square of successive differences"]) Session.fresh)).(Run.disk) !! "out.csv"
  = Some ("filename,avgnn,rmssd" ++ Str.newline ++ "a.tsv,832.00000,0.12500" ++ Str.newline
          ++ "b.tsv,832.00000,0.12500" ++ Str.newline).
Proof. vm_compute. reflexivity. Qed.

(** *** The claims on the report workflow, on the sample session *)

(** A recording whose history file exists is loaded from it. *)
Lemma history_file_is_preferred_witness :
  exists evs,
    Run.trace (fst (Session.process_file "out.csv" ["avgnn"] "a.tsv" Session.resumed))
      = (Run.trace Session.resumed ++ evs)%list /\
    In (Run.EvLoadHistory ".a.tsv.json") evs /\
    forall e, In e evs -> Run.recomputes e = false.
Proof.
  destruct (Run.history_file_is_preferred string Session.relpath Session.load_history
              (fun d _ _ => Ok d) (fun d _ => Ok d) (fun d => Ok d) (fun _ d => Ok d)
              Session.HRV Session.spills "ECG" Session.hz "MRI" 1%Z "out.csv" true true
              Session.thresh Session.load ["avgnn"] "a.tsv" Session.resumed)
    as (evs & Ht & Hyes & _).
  exists evs. split; [exact Ht|]. apply Hyes. vm_compute. eauto.
Defined.



(** C8, where the code departs from it: the rows are written with
    [dest.write] and never flushed.  When the first recording is
    completed, its row and the header are with the writer of
    [io.DEFAULT_BUFFER_SIZE] characters and the report file is still
    empty; an interruption that ends the run here without unwinding the
    [with] block leaves no row. *)
Theorem row_waits_in_the_buffer :
  let w1 := fst (Session.process_file "out.csv" ["avgnn"] "a.tsv"
                   (Run.opened Session.spills "out.csv" ("filename,avgnn" ++ Str.newline)
                      Session.fresh)) in
  Run.disk w1 !! "out.csv" = Some "" /\
  Run.pending w1 = "filename,avgnn" ++ Str.newline ++ "a.tsv,832.00000" ++ Str.newline.
Proof. vm_compute. split; reflexivity. Qed.

Lemma completed_rows_survive_an_exception_witness :
  exists rows,
    Forall2 (Run.row_of Session.relpath ["avgnn"]) ["a.tsv"] rows /\
    Run.disk (fst (Session.write_report "out.csv" ["avgnn"] ("filename,avgnn" ++ Str.newline)
                     (["a.tsv"] ++ "b.tsv" :: ["c.tsv"]) Session.second_empty)) !! "out.csv"
    = Some (Run.written "out.csv" (fst (Run.open_append "out.csv" Session.second_empty))
            ++ ("filename,avgnn" ++ Str.newline) ++ String.concat "" rows).
Proof.
  refine (Run.completed_rows_survive_an_exception string Session.relpath
            Session.load_history (fun d _ _ => Ok d) (fun d _ => Ok d) (fun d => Ok d)
            (fun _ d => Ok d) Session.HRV Session.spills "ECG" Session.hz "MRI" 1%Z
            "out.csv" true true Session.thresh Session.load ["avgnn"]
            ("filename,avgnn" ++ Str.newline) ["a.tsv"] "b.tsv" ["c.tsv"]
            Session.second_empty
            (fst (for_each ["a.tsv"] (Session.process_file "out.csv" ["avgnn"])
                    (Run.opened Session.spills "out.csv" ("filename,avgnn" ++ Str.newline)
                       Session.second_empty)))
            _ (ValueError "no samples in b.tsv") _ _ _).
  - intros _ f [<-|[<-|[]]]; vm_compute; discriminate.
  - vm_compute; reflexivity.
  - vm_compute; reflexivity.
Defined.




(** C3, where the code departs from it: the report of an earlier run names
    [foo], which is no attribute of the result.  [getattr] yields the
    default [""], the format raises [ValueError], and the report gets no
    row, with an empty field or otherwise. *)
Theorem missing_measurement_raises_value_error :
  let run := Session.workflow "out.csv" (Some ["Average NN intervals"])
               (Session.reported ("filename,foo" ++ Str.newline)) in
  snd run = Err (ValueError "Unknown format code 'f' for object of type 'str'") /\
  Run.disk (fst run) !! "out.csv" = Some ("filename,foo" ++ Str.newline).
Proof. vm_compute. split; reflexivity. Qed.

(** ** A sample run of [peakdet]

    A recording of four columns; a configuration that has steps for the
    cardiac column only unless its text is ["both"]. *)

Module Recording.

Import Workflow.

Definition Series : Type := list Z.

Definition load_config (text : string) : result (gmap string string) :=
  if String.eqb text "both"
  then Ok {[ "ecg" := "bandpass"; "resp" := "lowpass" ]}
  else Ok {[ "ecg" := "bandpass" ]}.

Definition hz : spec_float := S754_finite false 1000 0.

Definition load_sidecar (text : string) : result sidecar :=
  Ok (Sidecar (Some ["time"; "trigger"; "ecg"; "resp"]) (Some (FreqOne hz))).

Definition read_csv (disk : gmap string string) (path : string) (names : list string)
  : result (list (string * Series)) :=
  match disk !! path with
  | Some _ => Ok (map (fun name => (name, [1; 2; 3]%Z)) names)
  | None => Err (FileNotFoundError path)
  end.

Definition label_at (labels : list string) (i : Z) : result string :=
  match labels !! Z.to_nat i with
  | Some l => Ok l
  | None => Err (IndexError "index out of bounds")
  end.

(** Indexing in the way of a one-dimensional array: two positions are
    one too many, [None] adds an axis. *)
Definition index_columns (labels : list string) (index : col_index)
  : result (list string) :=
  match index with
  | IdxTuple _ (Some _) => Err (IndexError "too many indices for array")
  | IdxTuple i None => map_result (label_at labels) [i]
  | IdxList l => map_result (label_at labels) l
  | IdxScalar i => map_result (label_at labels) [i]
  end.

Definition find_chtrig (data : list (string * Series)) : result (option Z) :=
  Ok (option_map Z.of_nat (position "trigger" (map fst data))).

Definition select_columns :=
  Workflow.select_columns Series index_columns find_chtrig.

Definition process_columns :=
  Workflow.process_columns Series Series string (fun s _ => Ok s) (fun p _ => Ok p)
    (fun _ _ => Ok tt) (fun _ _ => Ok tt) (fun _ _ => Ok tt).

Definition peakdet :=
  Workflow.peakdet Series Series string "0.1" (fun _ _ => "rec.json")
    load_config load_sidecar read_csv index_columns find_chtrig
    (fun s _ => Ok s) (fun p _ => Ok p)
    (fun _ _ => Ok tt) (fun _ _ => Ok tt) (fun _ _ => Ok tt).

Definition table : list (string * Series) :=
  map (fun name => (name, [1; 2; 3]%Z)) ["time"; "trigger"; "ecg"; "resp"].

Definition signals : list (string * Series) :=
  map (fun name => (name, [1; 2; 3]%Z)) ["ecg"; "resp"].

Definition folder (config : string) : world :=
  World {[ "config.json" := config; "rec.json" := "{}"; "rec.tsv" := "0" ]} [].

End Recording.

Example peakdet_sample :
  Recording.peakdet "rec.tsv" "config.json" "" (Some "out") "/data/peakdet"
    (Some (Workflow.PhysList [2; 3]%Z)) (Some 1%Z) true (Recording.folder "both")
  = (Workflow.World (Workflow.disk (Recording.folder "both"))
       [ Workflow.EvInfo "Currently running peakdet version 0.1";
         Workflow.EvPhysio "ecg"; Workflow.EvProcess "ecg";
         Workflow.EvManualPeaks "/data/peakdet/out_ecg.phys";
         Workflow.EvPhysio "resp"; Workflow.EvProcess "resp";
         Workflow.EvManualPeaks "/data/peakdet/out_resp.phys";
         Workflow.EvInfo "peakdet finished! Check results in /data/peakdet." ],
     Ok tt).
Proof. vm_compute. reflexivity. Qed.

(** *** The claims on [peakdet], on the sample run *)

Lemma automatic_search_reads_unbound_chtime_witness :
  Recording.select_columns None (Some 0%Z) Recording.table (Recording.folder "both")
  = (Workflow.World (Workflow.disk (Recording.folder "both"))
       [Workflow.EvInfo "Running automatic trigger detection."; Workflow.EvFindChtrig],
     Err (UnboundLocalError "chtime")).
Proof.
  refine (Workflow.automatic_search_reads_unbound_chtime Recording.Series
            Recording.index_columns Recording.find_chtrig Recording.table (Some 1%Z)
            (Recording.folder "both") _).
  vm_compute; reflexivity.
Defined.

Lemma search_runs_only_for_zero_witness :
  exists evs,
    Workflow.trace (fst (Recording.select_columns None None Recording.table
                           (Recording.folder "both")))
      = (Workflow.trace (Recording.folder "both") ++ evs)%list /\
    ~ In Workflow.EvFindChtrig evs /\
    In (Workflow.EvGetLoc "time") evs /\
    In (Workflow.EvColumns (Workflow.IdxTuple 0 None)) evs.
Proof.
  destruct (Workflow.search_runs_only_for_zero Recording.Series Recording.index_columns
              Recording.find_chtrig None None Recording.table (Recording.folder "both"))
    as (evs & Ht & Hiff & _ & Hnone).
  exists evs. split; [exact Ht|]. split.
  - intros Hin. apply Hiff in Hin. destruct Hin as [_ Hz]. discriminate.
  - destruct (Hnone eq_refl eq_refl) as [Hloc Hidx]. split; [exact Hloc|].
    apply (Hidx 0%nat). vm_compute; reflexivity.
Defined.

(** C9 fails on the code: [chtrig] is 0, the default of the command line,
    and [phys_idx] is given.  The columns are taken by position and the
    search for the trigger channel does not run. *)
Lemma phys_idx_skips_the_search :
  Recording.select_columns (Some (Workflow.PhysInt 2)) (Some 0%Z) Recording.table
    (Recording.folder "both")
  = (Recording.folder "both", Ok [("ecg", [1; 2; 3]%Z)]).
Proof. vm_compute. reflexivity. Qed.

Lemma default_outfile_never_saves_witness :
  snd (Recording.process_columns {[ "ecg" := "bandpass" ]}
         (Workflow.Sidecar None (Some (Workflow.FreqOne Recording.hz)))
         None "/data/peakdet" false Recording.signals (Recording.folder "both"))
    = Err Workflow.none_plus_str /\
  exists evs,
    Workflow.trace (fst (Recording.peakdet "rec.tsv" "config.json" "" None "/data/peakdet"
                           (Some (Workflow.PhysList [2; 3]%Z)) (Some 1%Z) false
                           (Recording.folder "both")))
      = (Workflow.trace (Recording.folder "both") ++ evs)%list /\
    forall e, In e evs -> Workflow.saves e = false.
Proof.
  refine (Workflow.default_outfile_never_saves Recording.Series Recording.Series string
            "0.1" (fun _ _ => "rec.json") Recording.load_config Recording.load_sidecar
            Recording.read_csv Recording.index_columns Recording.find_chtrig
            (fun s _ => Ok s) (fun p _ => Ok p)
            (fun _ _ => Ok tt) (fun _ _ => Ok tt) (fun _ _ => Ok tt)
            {[ "ecg" := "bandpass" ]}
            (Workflow.Sidecar None (Some (Workflow.FreqOne Recording.hz)))
            "rec.tsv" "config.json" "" "/data/peakdet"
            (Some (Workflow.PhysList [2; 3]%Z)) (Some 1%Z) false Recording.signals
            "ecg" ["resp"] Recording.hz [1; 2; 3]%Z [1; 2; 3]%Z [1; 2; 3]%Z "bandpass"
            (Recording.folder "both") _ _ _ _ _ _);
    vm_compute; reflexivity.
Defined.

(** ** The configuration is not checked before the first file *)

(** C6 fails on the code.  An empty selection of measurements raises
    nothing: both recordings are processed and get a row with the name
    alone.  And a configuration without steps for the second column raises
    only when the loop reaches that column: the first column has been
    processed and handed to [manual_peaks] by then. *)
Lemma configuration_fails_late :
  (let run := Session.workflow "out.csv" (Some []) Session.fresh in
   snd run = Ok tt /\
   Run.disk (fst run) !! "out.csv"
     = Some ("filename," ++ Str.newline ++ "a.tsv" ++ Str.newline ++ "b.tsv" ++ Str.newline)) /\
  (let run := Recording.peakdet "rec.tsv" "config.json" "" (Some "out") "/data/peakdet"
                (Some (Workflow.PhysList [2; 3]%Z)) (Some 1%Z) true
                (Recording.folder "cardiac") in
   snd run = Err (KeyError "resp") /\
   In (Workflow.EvManualPeaks "/data/peakdet/out_ecg.phys") (Workflow.trace (fst run))).
Proof.
  vm_compute. repeat split; try reflexivity. tauto.
Qed.

Section Configuration.

Variables (Physio : Type) (glob : gmap string string -> string -> list string).
Variables (relpath : string -> string).
Variables (load_rtpeaks load_physio : Run.loader Physio).
Variables (load_history : gmap string string -> string -> result Physio).
Variables (filter_physio : Physio -> Run.cutoffs -> string -> result Physio).
Variables (peakfind_physio : Physio -> spec_float -> result Physio).
Variables (edit_physio : Physio -> result Physio).
Variables (save_history : string -> Physio -> result string).
Variables (HRV : Physio -> result (gmap string pyval)) (spills : string -> bool).

Variables (Series Record Steps : Type).
Variables (make_physio : Series -> spec_float -> result Record).
Variables (process_signals : Record -> Steps -> result Record).
Variables (manual_peaks : Record -> string -> result unit).
Variables (save_physio save_record : string -> Record -> result unit).

(** C6, as the code has it: without a selection of measurements the
    report workflow raises its descriptive [TypeError] after the two
    lines it prints, before the report is opened and before any file;
    and a column that has no entry in the configuration of [peakdet]
    raises [KeyError] when the loop reaches it, the columns before it
    having been processed. *)
Theorem only_absent_measurements_fail_early :
  (forall (file_template modality : string) (fs : spec_float) (source : string)
          (channel : Z) (output : string) (savehistory noedit : bool)
          (thresh : spec_float) (w : Run.world),
     Run.workflow Physio glob relpath load_rtpeaks load_physio load_history
       filter_physio peakfind_physio edit_physio save_history HRV spills
       file_template modality fs source channel output savehistory noedit thresh None w
     = (Run.World (Run.disk w) (Run.pending w)
          (Run.trace w ++
           [ Run.EvPrint ("OUTPUT FILE:" ++ Str.tab ++ Str.tab ++ output ++ Str.newline);
             Run.EvPrint ("FILE TEMPLATE:" ++ Str.tab ++ file_template ++ Str.newline) ]),
        Err (TypeError Run.no_measurements_msg))) /\
  (forall (config : gmap string Steps) (info : Workflow.sidecar)
          (outfile : option string) (outdir : string) (manual_detector : bool)
          (data : Workflow.DataFrame Series) (done : list string) (col : string)
          (others : list string) (fs : spec_float) (series : Series)
          (physio_obj : Record) (w w1 : Workflow.world),
     Workflow.columns Series data = (done ++ col :: others)%list ->
     for_each (Workflow.enumerate done)
       (Workflow.process_column Series Record Steps make_physio process_signals
          manual_peaks save_physio save_record config info outfile outdir
          manual_detector data) w = (w1, Ok tt) ->
     Workflow.sampling_frequency info (length done) = Ok fs ->
     Workflow.getitem Series data col = Ok series ->
     make_physio series fs = Ok physio_obj ->
     config !! col = None ->
     Workflow.process_columns Series Record Steps make_physio process_signals
       manual_peaks save_physio save_record config info outfile outdir
       manual_detector data w
     = (Workflow.World (Workflow.disk w1) (Workflow.trace w1 ++ [Workflow.EvPhysio col]),
        Err (KeyError col))).
Proof.
  split.
  - intros. apply Run.workflow_without_measurements.
  - intros. by eapply Workflow.missing_entry_raises_in_the_loop.
Qed.

End Configuration.

Lemma only_absent_measurements_fail_early_witness :
  Session.workflow "out.csv" None Session.fresh
  = (Run.World (Run.disk Session.fresh) ""
       [ Run.EvPrint ("OUTPUT FILE:" ++ Str.tab ++ Str.tab ++ "out.csv" ++ Str.newline);
         Run.EvPrint ("FILE TEMPLATE:" ++ Str.tab ++ "*.tsv" ++ Str.newline) ],
     Err (TypeError Run.no_measurements_msg)) /\
  Recording.process_columns {[ "ecg" := "bandpass" ]}
    (Workflow.Sidecar None (Some (Workflow.FreqOne Recording.hz)))
    (Some "out") "/data/peakdet" true Recording.signals (Recording.folder "cardiac")
  = (Workflow.World (Workflow.disk (Recording.folder "cardiac"))
       [ Workflow.EvPhysio "ecg"; Workflow.EvProcess "ecg";
         Workflow.EvManualPeaks "/data/peakdet/out_ecg.phys"; Workflow.EvPhysio "resp" ],
     Err (KeyError "resp")).
Proof.
  pose proof (only_absent_measurements_fail_early string Session.glob Session.relpath
                Session.load Session.load Session.load_history (fun d _ _ => Ok d)
                (fun d _ => Ok d) (fun d => Ok d) (fun _ d => Ok d) Session.HRV
                Session.spills Recording.Series Recording.Series string
                (fun s _ => Ok s) (fun p _ => Ok p)
                (fun _ _ => Ok tt) (fun _ _ => Ok tt) (fun _ _ => Ok tt)) as [Hrun Hloop].
  split.
  - exact (Hrun "*.tsv" "ECG" Session.hz "MRI" 1%Z "out.csv" true true Session.thresh
             Session.fresh).
  - refine (Hloop {[ "ecg" := "bandpass" ]}
              (Workflow.Sidecar None (Some (Workflow.FreqOne Recording.hz)))
              (Some "out") "/data/peakdet" true Recording.signals ["ecg"] "resp" []
              Recording.hz [1; 2; 3]%Z [1; 2; 3]%Z (Recording.folder "cardiac")
              (Workflow.World (Workflow.disk (Recording.folder "cardiac"))
                 [ Workflow.EvPhysio "ecg"; Workflow.EvProcess "ecg";
                   Workflow.EvManualPeaks "/data/peakdet/out_ecg.phys" ])
              _ _ _ _ _ _); vm_compute; reflexivity.
Defined.

(** ** The further properties, on the sample session and the sample run *)

Lemma completed_file_appends_one_row_witness :
  exists outs,
    length outs = 1%nat /\
    Run.written "out.csv" (fst (Session.process_file "out.csv" ["avgnn"] "a.tsv" Session.fresh))
    = Run.written "out.csv" Session.fresh ++ Str.join "," ("a.tsv" :: outs) ++ Str.newline.
Proof.
  refine (Run.completed_file_appends_one_row string Session.relpath Session.load_history
            (fun d _ _ => Ok d) (fun d _ => Ok d) (fun d => Ok d) (fun _ d => Ok d)
            Session.HRV Session.spills "ECG" Session.hz "MRI" 1%Z "out.csv" true true
            Session.thresh Session.load ["avgnn"] "a.tsv" Session.fresh
            (fst (Session.process_file "out.csv" ["avgnn"] "a.tsv" Session.fresh))
            (inr tt) _ _).
  - vm_compute; reflexivity.
  - intros _. vm_compute. discriminate.
Defined.


Lemma noedit_skips_the_editor_witness :
  exists evs,
    Run.trace (fst (Session.process_file "out.csv" ["avgnn"] "a.tsv" Session.resumed))
      = (Run.trace Session.resumed ++ evs)%list /\
    ~ In Run.EvEdit evs.
Proof.
  destruct (Run.noedit_skips_the_editor string Session.relpath Session.load_history
              (fun d _ _ => Ok d) (fun d _ => Ok d) (fun d => Ok d) (fun _ d => Ok d)
              Session.HRV Session.spills "ECG" Session.hz "MRI" 1%Z "out.csv" true true
              Session.thresh Session.load ["avgnn"] "a.tsv" Session.resumed)
    as (evs & Ht & Hskip & _).
  exists evs. split; [exact Ht|]. apply Hskip. reflexivity.
Defined.

Lemma other_files_are_untouched_witness :
  Run.disk (fst (Session.process_file "out.csv" ["avgnn"] "a.tsv" Session.fresh)) !! "b.tsv"
  = Run.disk Session.fresh !! "b.tsv".
Proof.
  refine (Run.other_files_are_untouched string Session.relpath Session.load_history
            (fun d _ _ => Ok d) (fun d _ => Ok d) (fun d => Ok d) (fun _ d => Ok d)
            Session.HRV Session.spills "ECG" Session.hz "MRI" 1%Z "out.csv" true true
            Session.thresh Session.load ["avgnn"] "a.tsv" "b.tsv" Session.fresh _ _).
  - discriminate.
  - intros _. vm_compute. discriminate.
Defined.

Lemma fresh_report_contents_witness :
  exists rows,
    Forall2 (Run.row_of Session.relpath ["avgnn"])
      (Session.glob (Run.disk Session.fresh) "*.tsv") rows /\
    Run.disk (fst (Session.workflow "out.csv" (Some ["Average NN intervals"]) Session.fresh))
      !! "out.csv"
    = Some (Run.header ["avgnn"] ++ Str.newline ++ String.concat "" rows).
Proof.
  refine (Run.fresh_report_contents string Session.glob Session.relpath Session.load
            Session.load Session.load_history (fun d _ _ => Ok d) (fun d _ => Ok d)
            (fun d => Ok d) (fun _ d => Ok d) Session.HRV Session.spills "*.tsv" "ECG"
            Session.hz "MRI" 1%Z "out.csv" true true Session.thresh
            ["Average NN intervals"] ["avgnn"] Session.load Session.fresh
            (fst (Session.workflow "out.csv" (Some ["Average NN intervals"]) Session.fresh))
            _ _ _ _ _ _); try (vm_compute; reflexivity).
  intros _ f [<-|[<-|[]]]; vm_compute; discriminate.
Defined.

(** The sample session with another template, modality or source. *)
Definition session_workflow (template modality source : string) :=
  Run.workflow string Session.glob Session.relpath Session.load Session.load
    Session.load_history (fun d _ _ => Ok d) (fun d _ => Ok d) (fun d => Ok d)
    (fun _ d => Ok d) Session.HRV Session.spills template modality Session.hz source
    1%Z "out.csv" true true Session.thresh.


Lemma empty_report_raises_index_error_witness :
  Session.workflow "out.csv" (Some ["Average NN intervals"]) (Session.reported "")
  = (Run.announced "*.tsv" "out.csv" ["Average NN intervals"] (Session.reported ""),
     Err (IndexError "list index out of range")).
Proof.
  refine (Run.empty_report_raises_index_error string Session.glob Session.relpath
            Session.load Session.load Session.load_history (fun d _ _ => Ok d)
            (fun d _ => Ok d) (fun d => Ok d) (fun _ d => Ok d) Session.HRV Session.spills
            "*.tsv" "ECG" Session.hz "MRI" 1%Z "out.csv" true true Session.thresh
            ["Average NN intervals"] ["avgnn"] Session.load (Session.reported "") _ _ _);
    vm_compute; reflexivity.
Defined.

Lemma unknown_measurement_raises_key_error_witness :
  exists unknown,
    In unknown ["Average NN intervals"; "avgnn"] /\
    assoc Run.ATTR_CONV unknown = None /\
    Session.workflow "out.csv" (Some ["Average NN intervals"; "avgnn"]) Session.fresh
    = (Run.announced "*.tsv" "out.csv" ["Average NN intervals"; "avgnn"] Session.fresh,
       Err (KeyError unknown)).
Proof.
  refine (Run.unknown_measurement_raises_key_error string Session.glob Session.relpath
            Session.load Session.load Session.load_history (fun d _ _ => Ok d)
            (fun d _ => Ok d) (fun d => Ok d) (fun _ d => Ok d) Session.HRV Session.spills
            "*.tsv" "ECG" Session.hz "MRI" 1%Z "out.csv" true true Session.thresh
            ["Average NN intervals"; "avgnn"] "avgnn" Session.fresh _ _).
  - right. left. reflexivity.
  - vm_compute; reflexivity.
Defined.

Lemma unknown_source_raises_key_error_witness :
  session_workflow "*.tsv" "ECG" "EEG" (Some ["Average NN intervals"]) Session.fresh
  = (Run.announced "*.tsv" "out.csv" ["Average NN intervals"] Session.fresh,
     Err (KeyError "EEG")).
Proof.
  refine (Run.unknown_source_raises_key_error string Session.glob Session.relpath
            Session.load Session.load Session.load_history (fun d _ _ => Ok d)
            (fun d _ => Ok d) (fun d => Ok d) (fun _ d => Ok d) Session.HRV Session.spills
            "*.tsv" "ECG" Session.hz "EEG" 1%Z "out.csv" true true Session.thresh
            ["Average NN intervals"] ["avgnn"] Session.fresh _ _ _).
  - vm_compute; reflexivity.
  - discriminate.
  - discriminate.
Defined.

Lemma unknown_modality_is_noticed_after_loading_witness :
  Run.process_file string Session.relpath Session.load_history
    (fun d _ _ => Ok d) (fun d _ => Ok d) (fun d => Ok d) (fun _ d => Ok d)
    Session.HRV Session.spills "EEG" Session.hz "MRI" 1%Z "out.csv" true true
    Session.thresh Session.load ["avgnn"] "a.tsv" Session.fresh
  = (Run.World (Run.disk Session.fresh) (Run.pending Session.fresh)
       (Run.trace Session.fresh ++
        [Run.EvPrint ("Currently processing " ++ "a.tsv"); Run.EvLoad "a.tsv"]),
     Err (KeyError "EEG")).
Proof.
  refine (Run.unknown_modality_is_noticed_after_loading string Session.relpath
            Session.load_history (fun d _ _ => Ok d) (fun d _ => Ok d) (fun d => Ok d)
            (fun _ d => Ok d) Session.HRV Session.spills "EEG" Session.hz "MRI" 1%Z
            "out.csv" true true Session.thresh Session.load ["avgnn"] "a.tsv" "a.tsv"
            Session.fresh _ _ _); vm_compute; reflexivity.
Defined.

Example format_5f_shape_sample :
  "-0.12500" = "nan" \/ "-0.12500" = "inf" \/ "-0.12500" = "-inf" \/
  exists whole decimals,
    "-0.12500" = whole ++ "." ++ decimals /\
    String.length decimals = 5%nat /\
    forall i c, String.get i decimals = Some c -> Ascii.is_nat c <> None.
Proof.
  refine (Fmt.format_5f_shape (VFloat (S754_finite true 1 (-3))) "-0.12500" _).
  vm_compute; reflexivity.
Defined.

(** 2^-6 is 1562.5 hundred-thousandths: a tie, printed as 1562. *)
Example scaled5_is_nearest_sample : Z.even (Fmt.scaled5 1 (-6)) = true.
Proof.
  destruct (Fmt.scaled5_is_nearest 1 (-6)) as [_ Hneg].
  destruct (Hneg ltac:(lia)) as [_ Htie]. apply Htie. vm_compute; reflexivity.
Defined.

Lemma row_fields_have_five_decimals_witness :
  length ["-0.12500"] = length ["avgnn"] /\
  forall out, In out ["-0.12500"] ->
    out = "nan" \/ out = "inf" \/ out = "-inf" \/
    exists whole decimals,
      out = whole ++ "." ++ decimals /\
      String.length decimals = 5%nat /\
      forall i c, String.get i decimals = Some c -> Ascii.is_nat c <> None.
Proof.
  refine (Run.row_fields_have_five_decimals
            {[ "avgnn" := VFloat (S754_finite true 1 (-3)) ]} ["avgnn"] ["-0.12500"] _).
  vm_compute; reflexivity.
Defined.

Lemma history_file_is_a_hidden_sibling_witness :
  Run.history_name "rec.tsv" = ".rec.tsv.json" /\
  Run.history_name ("sub/dir" ++ "/" ++ "rec.tsv") = "sub/dir" ++ "/." ++ "rec.tsv" ++ ".json".
Proof.
  destruct (Run.history_file_is_a_hidden_sibling "rec.tsv" eq_refl) as [Hflat Hnested].
  split; [exact Hflat|]. apply Hnested; [discriminate|reflexivity].
Defined.

Lemma header_round_trip_witness :
  Run.header_measurements (Run.header ["avgnn"; "rmssd"] ++ Str.newline) = ["avgnn"; "rmssd"].
Proof.
  refine (Run.header_round_trip
            ["Average NN intervals"; "Root mean square of successive differences"]
            ["avgnn"; "rmssd"] _ _).
  - vm_compute; reflexivity.
  - discriminate.
Defined.

Lemma rows_follow_an_unterminated_header_witness :
  let w := Session.reported (Run.header ["avgnn"]) in
  Session.workflow "out.csv" (Some ["Average NN intervals"]) w =
    Session.write_report "out.csv" ["avgnn"] "" (Session.glob (Run.disk w) "*.tsv")
      (Run.announced "*.tsv" "out.csv" ["Average NN intervals"] w) /\
  exists rows,
    Forall2 (Run.row_of Session.relpath ["avgnn"]) (Session.glob (Run.disk w) "*.tsv") rows /\
    Run.disk (fst (Session.workflow "out.csv" (Some ["Average NN intervals"]) w)) !! "out.csv"
    = Some (Run.header ["avgnn"] ++ String.concat "" rows).
Proof.
  refine (Run.rows_follow_an_unterminated_header string Session.glob Session.relpath
            Session.load Session.load Session.load_history (fun d _ _ => Ok d)
            (fun d _ => Ok d) (fun d => Ok d) (fun _ d => Ok d) Session.HRV Session.spills
            "*.tsv" "ECG" Session.hz "MRI" 1%Z "out.csv" true true Session.thresh
            ["Average NN intervals"] ["avgnn"] Session.load
            (Session.reported (Run.header ["avgnn"]))
            (fst (Session.workflow "out.csv" (Some ["Average NN intervals"])
                    (Session.reported (Run.header ["avgnn"]))))
            _ _ _ _ _ _); try (vm_compute; reflexivity).
  intros _ f [<-|[<-|[]]]; vm_compute; discriminate.
Defined.

Lemma missing_time_column_raises_witness :
  Recording.select_columns None (Some 1%Z) Recording.signals (Recording.folder "both")
  = (Workflow.World (Workflow.disk (Recording.folder "both"))
       (Workflow.trace (Recording.folder "both") ++ [Workflow.EvGetLoc "time"]),
     Err (KeyError "time")).
Proof.
  refine (Workflow.missing_time_column_raises Recording.Series Recording.index_columns
            Recording.find_chtrig (Some 1%Z) Recording.signals (Recording.folder "both") _ _).
  - discriminate.
  - intros [H|[H|[]]]; discriminate.
Defined.

Lemma short_frequency_list_raises_witness :
  Recording.process_columns {[ "ecg" := "bandpass"; "resp" := "lowpass" ]}
    (Workflow.Sidecar None (Some (Workflow.FreqList [Recording.hz])))
    (Some "out") "/data/peakdet" true Recording.signals (Recording.folder "both")
  = (Workflow.World (Workflow.disk (Recording.folder "both"))
       [ Workflow.EvPhysio "ecg"; Workflow.EvProcess "ecg";
         Workflow.EvManualPeaks "/data/peakdet/out_ecg.phys" ],
     Err (IndexError "list index out of range")).
Proof.
  refine (Workflow.short_frequency_list_raises Recording.Series Recording.Series string
            (fun s _ => Ok s) (fun p _ => Ok p)
            (fun _ _ => Ok tt) (fun _ _ => Ok tt) (fun _ _ => Ok tt)
            {[ "ecg" := "bandpass"; "resp" := "lowpass" ]}
            (Workflow.Sidecar None (Some (Workflow.FreqList [Recording.hz])))
            (Some "out") "/data/peakdet" true Recording.signals ["ecg"] "resp" []
            [Recording.hz] (Recording.folder "both") _ _ _ _ _);
    vm_compute; reflexivity.
Defined.

Lemma absolute_outfile_ignores_outdir_witness :
  Recording.process_columns {[ "ecg" := "bandpass" ]}
    (Workflow.Sidecar None (Some (Workflow.FreqOne Recording.hz)))
    (Some "/tmp/out") "/data/peakdet" false [("ecg", [1; 2; 3]%Z)] (Recording.folder "both")
  = (Workflow.World (Workflow.disk (Recording.folder "both"))
       [ Workflow.EvPhysio "ecg"; Workflow.EvProcess "ecg";
         Workflow.EvSavePhysio "/tmp/out_ecg"; Workflow.EvSaveHistory "/tmp/out_history_ecg" ],
     Ok tt).
Proof.
  unfold Recording.process_columns, Workflow.process_columns. cbn [for_each Workflow.enumerate
    Workflow.enumerate_from Workflow.columns map fst].
  unfold bind at 1.
  rewrite (Workflow.absolute_outfile_ignores_outdir Recording.Series Recording.Series string
             (fun s _ => Ok s) (fun p _ => Ok p)
             (fun _ _ => Ok tt) (fun _ _ => Ok tt) (fun _ _ => Ok tt)
             {[ "ecg" := "bandpass" ]}
             (Workflow.Sidecar None (Some (Workflow.FreqOne Recording.hz)))
             "/tmp/out" "/data/peakdet" "" false [("ecg", [1; 2; 3]%Z)] (0%nat, "ecg")
             (Recording.folder "both") eq_refl).
  vm_compute; reflexivity.
Defined.

Lemma outdir_is_taken_from_outfile_witness :
  Workflow.prepare_outdir (fun _ => Err (ValueError "commonpath")) (fun p => "/home/" ++ p)
    "rec.tsv" (Some ("results" ++ "/" ++ "out")) None
  = Ok ("/home/" ++ ("results" ++ "/peakdet")).
Proof.
  destruct (Workflow.outdir_is_taken_from_outfile (fun _ => Err (ValueError "commonpath"))
              (fun p => "/home/" ++ p) "rec.tsv" "out" eq_refl) as (_ & _ & Hfolder).
  apply Hfolder; [discriminate|reflexivity].
Defined.

Lemma second_pass_resumes_from_history_witness :
  let w1 := fst (Session.process_file "out.csv" ["avgnn"] "a.tsv" Session.fresh) in
  let w2 := fst (for_each ["b.tsv"] (Session.process_file "out.csv" ["avgnn"]) w1) in
  exists evs,
    Run.trace (fst (Session.process_file "out.csv" ["avgnn"] "a.tsv" w2))
      = (Run.trace w2 ++ evs)%list /\
    forall e, In e evs -> Run.recomputes e = false.
Proof.
  refine (Run.second_pass_resumes_from_history string Session.relpath Session.load_history
            (fun d _ _ => Ok d) (fun d _ => Ok d) (fun d => Ok d) (fun _ d => Ok d)
            Session.HRV Session.spills "ECG" Session.hz "MRI" 1%Z "out.csv" true true
            Session.thresh Session.load ["avgnn"] "a.tsv" ["b.tsv"] Session.fresh
            (fst (Session.process_file "out.csv" ["avgnn"] "a.tsv" Session.fresh))
            _ _ _ _ _).
  - reflexivity.
  - vm_compute. discriminate.
  - vm_compute; reflexivity.
  - reflexivity.
Defined.

Lemma successful_loop_saves_every_column_witness :
  fst (Recording.process_columns {[ "ecg" := "bandpass"; "resp" := "lowpass" ]}
         (Workflow.Sidecar None (Some (Workflow.FreqOne Recording.hz)))
         (Some "out") "/data/peakdet" false Recording.signals (Recording.folder "both"))
  = Workflow.World (Workflow.disk (Recording.folder "both"))
      (Workflow.trace (Recording.folder "both") ++
       concat (map (Workflow.column_events "out" "/data/peakdet" false)
                 (Workflow.columns Recording.Series Recording.signals))).
Proof.
  refine (Workflow.successful_loop_saves_every_column Recording.Series Recording.Series string
            (fun s _ => Ok s) (fun p _ => Ok p)
            (fun _ _ => Ok tt) (fun _ _ => Ok tt) (fun _ _ => Ok tt)
            {[ "ecg" := "bandpass"; "resp" := "lowpass" ]}
            (Workflow.Sidecar None (Some (Workflow.FreqOne Recording.hz)))
            "out" "/data/peakdet" false Recording.signals (Recording.folder "both") _ _).
  vm_compute; reflexivity.
Defined.
